(** * Laboratory workflow services: a shallow embedding and its properties

    The repository holds three Go services that talk over HTTP and keep
    their state in Redis:

    - the workflow service ([services/workflow-service/main.go]), the
      coordinator that creates, starts, completes and steps workflows;
    - the device service (its [main.go] follows in the same source
      file), which books, releases and drives devices;
    - the sample service ([services/sample-service/main.go]), a registry
      of samples with a barcode validation endpoint.

    Each service is embedded in a module of its own.  Handlers are
    functions from the request and the service state to an outcome and
    the new state.  What a handler gets from outside the program (the
    clock, the UUID generator, the answers of Redis and of the remote
    service) is an explicit argument or part of the state.

    Modelling conventions:
    - a Go [map] is a [gmap], a slice is a [list] (nil and empty slices
      are not distinguished), Go [int] is [Z];
    - the value Redis holds under a key is kept decoded: the collection
      written by [json.Marshal] is read back unchanged by
      [json.Unmarshal];
    - every Redis command may fail; the failures to come are a schedule
      carried by the store, one entry consumed per command. *)

From Stdlib Require Import ZArith Ascii Lia.
From stdpp Require Import gmap strings list fin_maps.

(** * Redis *)

Module Redis.

(** Go's [error] as returned by the client: [redis.Nil] (no such key)
  or any other failure (connection, decoding). *)
Inductive error := Nil | Failure.

Inductive result (A : Type) :=
| Ok (a : A)
| Error (e : error).
Arguments Ok {A} a.
Arguments Error {A} e.

Section store.
Context {V : Type}.

(** [kv] is the content of the server; [faults] tells, for each
    command still to be issued, whether it fails ([true]).  Past the
    end of the schedule every command succeeds.  A command that fails
    has no effect on the content. *)
Record t := mk { kv : gmap string V; faults : list bool }.

Definition tick (r : t) : bool * t :=
  match faults r with
  | [] => (false, r)
  | b :: fs => (b, mk (kv r) fs)
  end.

Definition GET (key : string) (r : t) : result V * t :=
  let '(bad, r) := tick r in
  if bad then (Error Failure, r)
  else match kv r !! key with
       | Some v => (Ok v, r)
       | None => (Error Nil, r)
       end.

Definition SET (key : string) (v : V) (r : t) : option error * t :=
  let '(bad, r) := tick r in
  if bad then (Some Failure, r)
  else (None, mk (<[key := v]> (kv r)) (faults r)).

Definition DEL (key : string) (r : t) : option error * t :=
  let '(bad, r) := tick r in
  if bad then (Some Failure, r)
  else (None, mk (delete key (kv r)) (faults r)).
Definition EXISTS (key : string) (r : t) : result Z * t :=
  let '(bad, r) := tick r in
  if bad then (Error Failure, r)
  else (Ok (match kv r !! key with Some _ => 1%Z | None => 0%Z end), r).

End store.
Arguments t V : clear implicits.

End Redis.

(** * Clock *)

(** [time.Now().UTC()] broken down into its calendar fields. *)
Record Time := mkTime {
  year : nat; month : nat; day : nat;
  hour : nat; minute : nat; second : nat
}.

Definition digit (n : nat) : ascii := ascii_of_nat (48 + n mod 10).

Definition pad2 (n : nat) : string :=
  String (digit (n / 10)) (String (digit n) "").

Definition pad4 (n : nat) : string :=
  String (digit (n / 1000)) (String (digit (n / 100)) (pad2 n)).

(** [t.Format(time.RFC3339)] for a UTC time: [2006-01-02T15:04:05Z]. *)
Definition formatRFC3339 (t : Time) : string :=
  pad4 (year t) +:+ "-" +:+ pad2 (month t) +:+ "-" +:+ pad2 (day t) +:+ "T"
  +:+ pad2 (hour t) +:+ ":" +:+ pad2 (minute t) +:+ ":" +:+ pad2 (second t)
  +:+ "Z".

(** * HTTP payloads exchanged between the services *)

(** A JSON object with string members, in member order. *)
Definition JsonObject := list (string * string).

(** [encoding/json] matches the name of a member to the name of a
    struct field exactly or, failing that, with the case folded
    ([bytes.EqualFold]).  On the bytes of a name, folding puts the ASCII
    letters in upper case and takes the two characters outside ASCII
    that fold to an ASCII letter, the Kelvin sign (U+212A, bytes E2 84
    AA) and the long s (U+017F, bytes C5 BF), to [K] and [S]; every
    other character outside ASCII folds to one outside ASCII and is
    kept as it is here. *)
Definition upper (c : ascii) : ascii :=
  let n := nat_of_ascii c in
  if (97 <=? n) && (n <=? 122) then ascii_of_nat (n - 32) else c.

Fixpoint foldName (s : string) : string :=
  match s with
  | EmptyString => EmptyString
  | String c s1 =>
      match s1 with
      | EmptyString => String (upper c) EmptyString
      | String c2 s2 =>
          if decide (c = ascii_of_nat 197 ∧ c2 = ascii_of_nat 191) then
            String "S" (foldName s2)
          else
            match s2 with
            | EmptyString => String (upper c) (foldName s1)
            | String c3 s3 =>
                if decide (c = ascii_of_nat 226 ∧ c2 = ascii_of_nat 132
                           ∧ c3 = ascii_of_nat 170) then
                  String "K" (foldName s3)
                else String (upper c) (foldName s1)
            end
      end
  end.

(** The value a decoder keeps for the field of JSON name [name]: that
    of the last member whose name matches it.  The structs bound here
    have no two fields whose names fold alike, so a member matches the
    field exactly when the folded names are equal. *)
Fixpoint member (name : string) (o : JsonObject) : option string :=
  match o with
  | [] => None
  | (k, v) :: o' =>
      match member name o' with
      | Some v' => Some v'
      | None => if decide (foldName k = foldName name) then Some v else None
      end
  end.

(** A request or response body.  [Json o]: the body is a JSON object
    whose members have string values, [o] in member order with the
    names decoded.  [Text s]: a body that is not a JSON object; binding
    it to a request struct fails.  Objects with members of other types
    are not covered. *)
Inductive Payload :=
| Json (o : JsonObject)
| Text (s : string).

(** [json.Unmarshal(body, &m)] into a [map[string]interface{}] with the
    error dropped: the map stays nil when the body is not an object. *)
Definition unmarshalObject (p : Payload) : option JsonObject :=
  match p with
  | Json o => Some o
  | Text _ => None
  end.

(** What [http.Post] returns: an error, or a response. *)
Inductive PostResult :=
| TransportError (e : string)
| Response (StatusCode : Z) (Body : Payload).

(** The status codes of [net/http] the services use. *)
Module http.
Definition StatusOK : Z := 200.
Definition StatusCreated : Z := 201.
Definition StatusBadRequest : Z := 400.
Definition StatusForbidden : Z := 403.
Definition StatusNotFound : Z := 404.
Definition StatusConflict : Z := 409.
Definition StatusInternalServerError : Z := 500.
End http.

(** * The workflow service *)

Module WorkflowService.
Import Redis.

Definition WORKFLOWS_KEY : string := "workflows".

(** [type WorkflowStatus string] with its four constants. *)
Definition WorkflowStatus := string.
Definition StatusCreated : WorkflowStatus := "created".
Definition StatusRunning : WorkflowStatus := "running".
Definition StatusCompleted : WorkflowStatus := "completed".
Definition StatusPaused : WorkflowStatus := "paused".

Record Workflow := mkWorkflow {
  ID : string;
  Name : string;
  DeviceID : string;
  SampleBarcodes : list string;
  Steps : list string;
  Status : WorkflowStatus;
  CreatedAt : string;
  StartedAt : string;     (* omitempty: absent when empty *)
  CompletedAt : string    (* omitempty: absent when empty *)
}.

Record CreateWorkflowRequest := mkCreateWorkflowRequest {
  req_Name : string;              (* binding:"required" *)
  req_DeviceID : string;          (* binding:"required" *)
  req_SampleBarcodes : list string;
  req_Steps : list string
}.

(** The values stored in a [map[string]interface{}]: a dynamic type and
    a value.  [string] and [WorkflowStatus] are different dynamic types. *)
Inductive any :=
| any_string (s : string)
| any_WorkflowStatus (s : WorkflowStatus)
| any_other.

(** The type assertions [v.(string)] and [v.(WorkflowStatus)] on the
    result of a map index; a missing key yields the nil interface. *)
Definition assert_string (v : option any) : option string :=
  match v with
  | Some (any_string s) => Some s
  | _ => None
  end.

Definition assert_WorkflowStatus (v : option any) : option WorkflowStatus :=
  match v with
  | Some (any_WorkflowStatus s) => Some s
  | _ => None
  end.

(** The store of the service: the collection of workflows is one value,
    under [WORKFLOWS_KEY]. *)
Abbreviation Store := (Redis.t (gmap string Workflow)).

Definition getAllWorkflows (r : Store)
  : result (gmap string Workflow) * Store :=
  match GET WORKFLOWS_KEY r with
  | (Ok workflows, r) => (Ok workflows, r)
  | (Error Nil, r) => (Ok ∅, r)
  | (Error e, r) => (Error e, r)
  end.

Definition saveWorkflows (workflows : gmap string Workflow) (r : Store)
  : option error * Store :=
  SET WORKFLOWS_KEY workflows r.

Definition getWorkflow (workflowID : string) (r : Store)
  : result (option Workflow) * Store :=
  match getAllWorkflows r with
  | (Error e, r) => (Error e, r)
  | (Ok workflows, r) => (Ok (workflows !! workflowID), r)
  end.

Definition with_Name (w : Workflow) (v : string) : Workflow :=
  mkWorkflow (ID w) v (DeviceID w) (SampleBarcodes w) (Steps w)
    (Status w) (CreatedAt w) (StartedAt w) (CompletedAt w).
Definition with_Status (w : Workflow) (v : WorkflowStatus) : Workflow :=
  mkWorkflow (ID w) (Name w) (DeviceID w) (SampleBarcodes w) (Steps w)
    v (CreatedAt w) (StartedAt w) (CompletedAt w).
Definition with_StartedAt (w : Workflow) (v : string) : Workflow :=
  mkWorkflow (ID w) (Name w) (DeviceID w) (SampleBarcodes w) (Steps w)
    (Status w) (CreatedAt w) v (CompletedAt w).
Definition with_CompletedAt (w : Workflow) (v : string) : Workflow :=
  mkWorkflow (ID w) (Name w) (DeviceID w) (SampleBarcodes w) (Steps w)
    (Status w) (CreatedAt w) (StartedAt w) v.

(** The four guarded assignments of [updateWorkflow], in source order. *)
Definition applyUpdates (updates : gmap string any) (workflow : Workflow)
  : Workflow :=
  let workflow :=
    match assert_string (updates !! "name") with
    | Some name => with_Name workflow name
    | None => workflow
    end in
  let workflow :=
    match assert_WorkflowStatus (updates !! "status") with
    | Some status => with_Status workflow status
    | None => workflow
    end in
  let workflow :=
    match assert_string (updates !! "started_at") with
    | Some startedAt => with_StartedAt workflow startedAt
    | None => workflow
    end in
  match assert_string (updates !! "completed_at") with
  | Some completedAt => with_CompletedAt workflow completedAt
  | None => workflow
  end.

Definition updateWorkflow (workflowID : string) (updates : gmap string any)
    (r : Store) : result (option Workflow) * Store :=
  match getAllWorkflows r with
  | (Error e, r) => (Error e, r)
  | (Ok workflows, r) =>
      match workflows !! workflowID with
      | None => (Ok None, r)
      | Some workflow =>
          let workflow := applyUpdates updates workflow in
          match saveWorkflows (<[workflowID := workflow]> workflows) r with
          | (Some e, r) => (Error e, r)
          | (None, r) => (Ok (Some workflow), r)
          end
      end
  end.

(** ** Handlers *)

(** The body given to [c.JSON]. *)
Inductive Body :=
| H_error (msg : string)
    (* gin.H{"error": msg} *)
| H_error_details (msg : string) (details : option JsonObject)
    (* gin.H{"error": msg, "details": details} *)
| JSON_workflow (workflow : option Workflow)
    (* a Workflow, or a nil *Workflow *)
| H_step (workflow_id : string) (step_index : Z) (step : string)
    (result : option JsonObject).

(** What a handler does with a request: it writes a response, or it
    panics (gin's recovery middleware then answers 500). *)
Inductive Outcome :=
| Respond (code : Z) (body : Body)
| Panic.

(** [steps[i]] for a Go [int] index: [None] is the run-time panic
    "index out of range". *)
Definition index (steps : list string) (i : Z) : option string :=
  if decide (i < 0)%Z then None else steps !! Z.to_nat i.

Definition len (steps : list string) : Z := Z.of_nat (length steps).

(** [c.ShouldBindJSON(&req)] for a [CreateWorkflowRequest]: [body] is the
    decoded request, [None] when the body is not JSON of that shape;
    members left out decode to zero values, and a required member must
    not be the zero value. *)
Definition bindCreateWorkflowRequest (body : option CreateWorkflowRequest)
  : option CreateWorkflowRequest :=
  match body with
  | None => None
  | Some req =>
      if decide (req_Name req = "" ∨ req_DeviceID req = "") then None
      else Some req
  end.

Section handlers.
(** The connection to the device service named by [deviceAPIURL]:
    [httpPost path body] is [http.Post(deviceAPIURL + path,
    "application/json", body)].  [N] is whatever state lies behind it. *)
Context {N : Type}.
Context (httpPost : string → JsonObject → N → PostResult * N).

Record World := mkWorld { redis : Store; net : N }.

(** [uuid.New().String()] and [time.Now().UTC()] are the arguments
    [workflowID] and [now]. *)
Definition createWorkflowHandler (body : option CreateWorkflowRequest)
    (workflowID : string) (now : Time) (s : World) : Outcome * World :=
  match bindCreateWorkflowRequest body with
  | None =>
      (Respond http.StatusBadRequest
         (H_error "name and device_id are required"), s)
  | Some req =>
      let workflow :=
        mkWorkflow workflowID (req_Name req) (req_DeviceID req)
          (req_SampleBarcodes req) (req_Steps req) StatusCreated
          (formatRFC3339 now) "" "" in
      match getAllWorkflows (redis s) with
      | (Error _, r) =>
          (Respond http.StatusInternalServerError
             (H_error "Failed to create workflow"), mkWorld r (net s))
      | (Ok workflows, r) =>
          match saveWorkflows (<[workflowID := workflow]> workflows) r with
          | (Some _, r) =>
              (Respond http.StatusInternalServerError
                 (H_error "Failed to create workflow"), mkWorld r (net s))
          | (None, r) =>
              (Respond http.StatusCreated (JSON_workflow (Some workflow)),
               mkWorld r (net s))
          end
      end
  end.

Definition startWorkflowHandler (workflowID : string) (now : Time)
    (s : World) : Outcome * World :=
  match getWorkflow workflowID (redis s) with
  | (Error _, r) =>
      (Respond http.StatusInternalServerError
         (H_error "Failed to retrieve workflow"), mkWorld r (net s))
  | (Ok None, r) =>
      (Respond http.StatusNotFound (H_error "Workflow not found"),
       mkWorld r (net s))
  | (Ok (Some workflow), r) =>
      if decide (Status workflow ≠ StatusCreated) then
        (Respond http.StatusBadRequest
           (H_error "Workflow already started or completed"),
         mkWorld r (net s))
      else
        let deviceID := DeviceID workflow in
        let bookURL := "/device/" +:+ deviceID +:+ "/reserve" in
        let bookReq := [("workflow_id", workflowID)] in
        match httpPost bookURL bookReq (net s) with
        | (TransportError err, n) =>
            (Respond http.StatusInternalServerError
               (H_error
                  ("Failed to communicate with device service: " +:+ err)),
             mkWorld r n)
        | (Response StatusCode body, n) =>
            if decide (StatusCode ≠ http.StatusOK) then
              (Respond StatusCode
                 (H_error_details "Failed to book device"
                    (unmarshalObject body)),
               mkWorld r n)
            else
              match updateWorkflow workflowID
                      {[ "status" := any_WorkflowStatus StatusRunning;
                         "started_at" := any_string (formatRFC3339 now) ]} r
              with
              | (Error _, r) =>
                  (Respond http.StatusInternalServerError
                     (H_error "Failed to update workflow"), mkWorld r n)
              | (Ok _, r) =>
                  match getWorkflow workflowID r with
                  | (Ok workflow, r) =>
                      (Respond http.StatusOK (JSON_workflow workflow),
                       mkWorld r n)
                  | (Error _, r) =>
                      (Respond http.StatusOK (JSON_workflow None),
                       mkWorld r n)
                  end
              end
        end
  end.

Definition completeWorkflowHandler (workflowID : string) (now : Time)
    (s : World) : Outcome * World :=
  match getWorkflow workflowID (redis s) with
  | (Error _, r) =>
      (Respond http.StatusInternalServerError
         (H_error "Failed to retrieve workflow"), mkWorld r (net s))
  | (Ok None, r) =>
      (Respond http.StatusNotFound (H_error "Workflow not found"),
       mkWorld r (net s))
  | (Ok (Some workflow), r) =>
      if decide (Status workflow ≠ StatusRunning) then
        (Respond http.StatusBadRequest (H_error "Workflow is not running"),
         mkWorld r (net s))
      else
        let deviceID := DeviceID workflow in
        let releaseURL := "/devices/" +:+ deviceID +:+ "/release" in
        let releaseReq := [("workflow_id", workflowID)] in
        match httpPost releaseURL releaseReq (net s) with
        | (TransportError err, n) =>
            (Respond http.StatusInternalServerError
               (H_error
                  ("Failed to communicate with device service: " +:+ err)),
             mkWorld r n)
        | (Response StatusCode body, n) =>
            if decide (StatusCode ≠ http.StatusOK) then
              (Respond StatusCode
                 (H_error_details "Failed to release device"
                    (unmarshalObject body)),
               mkWorld r n)
            else
              match updateWorkflow workflowID
                      {[ "status" := any_WorkflowStatus StatusCompleted;
                         "completed_at" := any_string (formatRFC3339 now) ]}
                      r
              with
              | (Error _, r) =>
                  (Respond http.StatusInternalServerError
                     (H_error "Failed to update workflow"), mkWorld r n)
              | (Ok _, r) =>
                  match getWorkflow workflowID r with
                  | (Ok workflow, r) =>
                      (Respond http.StatusOK (JSON_workflow workflow),
                       mkWorld r n)
                  | (Error _, r) =>
                      (Respond http.StatusOK (JSON_workflow None),
                       mkWorld r n)
                  end
              end
        end
  end.

(** [body] is the [step_index] decoded by [c.ShouldBindJSON(&req)]:
    [None] when binding fails (the handler then takes 0), and 0 when
    the object has no such member. *)
Definition executeStepHandler (workflowID : string) (body : option Z)
    (s : World) : Outcome * World :=
  match getWorkflow workflowID (redis s) with
  | (Error _, r) =>
      (Respond http.StatusInternalServerError
         (H_error "Failed to retrieve workflow"), mkWorld r (net s))
  | (Ok None, r) =>
      (Respond http.StatusNotFound (H_error "Workflow not found"),
       mkWorld r (net s))
  | (Ok (Some workflow), r) =>
      if decide (Status workflow ≠ StatusRunning) then
        (Respond http.StatusBadRequest (H_error "Workflow is not running"),
         mkWorld r (net s))
      else
        let StepIndex := match body with Some i => i | None => 0%Z end in
        let steps := Steps workflow in
        if decide (StepIndex >= len steps)%Z then
          (Respond http.StatusBadRequest (H_error "Invalid step index"),
           mkWorld r (net s))
        else
          match index steps StepIndex with
          | None => (Panic, mkWorld r (net s))
          | Some step =>
              let deviceID := DeviceID workflow in
              let executeURL := "/devices/" +:+ deviceID +:+ "/execute" in
              let executeReq :=
                [("workflow_id", workflowID); ("operation", step)] in
              match httpPost executeURL executeReq (net s) with
              | (TransportError err, n) =>
                  (Respond http.StatusInternalServerError
                     (H_error
                        ("Failed to communicate with device service: "
                         +:+ err)),
                   mkWorld r n)
              | (Response StatusCode body, n) =>
                  if decide (StatusCode ≠ http.StatusOK) then
                    (Respond StatusCode
                       (H_error_details "Failed to execute step"
                          (unmarshalObject body)),
                     mkWorld r n)
                  else
                    (Respond http.StatusOK
                       (H_step workflowID StepIndex step
                          (unmarshalObject body)),
                     mkWorld r n)
              end
          end
  end.

(** ** Sequences of requests *)

(** A request to the service together with what the handler reads from
    outside while serving it. *)
Inductive Request :=
| POST_workflows (body : option CreateWorkflowRequest)
    (uuid : string) (now : Time)
| POST_start (workflowID : string) (now : Time)
| POST_complete (workflowID : string) (now : Time)
| POST_execute_step (workflowID : string) (body : option Z).

Definition serve (q : Request) (s : World) : Outcome * World :=
  match q with
  | POST_workflows body uuid now => createWorkflowHandler body uuid now s
  | POST_start workflowID now => startWorkflowHandler workflowID now s
  | POST_complete workflowID now => completeWorkflowHandler workflowID now s
  | POST_execute_step workflowID body => executeStepHandler workflowID body s
  end.

(** Requests served one after the other. *)
Fixpoint run (qs : list Request) (s : World) : World :=
  match qs with
  | [] => s
  | q :: qs => run qs (snd (serve q s))
  end.

(** The identifiers handed out by the UUID generator along [qs]. *)
Fixpoint generated (qs : list Request) : list string :=
  match qs with
  | [] => []
  | POST_workflows _ uuid _ :: qs => uuid :: generated qs
  | _ :: qs => generated qs
  end.

End handlers.

(** The collection a store holds: empty when the key is missing. *)
Definition collection (r : Store) : gmap string Workflow :=
  match kv r !! WORKFLOWS_KEY with
  | Some workflows => workflows
  | None => ∅
  end.

(** ** Reading a workflow *)

Definition getWorkflowHandler (workflowID : string) (r : Store)
  : Outcome * Store :=
  match getWorkflow workflowID r with
  | (Error _, r) =>
      (Respond http.StatusInternalServerError
         (H_error "Failed to retrieve workflow"), r)
  | (Ok None, r) =>
      (Respond http.StatusNotFound (H_error "Workflow not found"), r)
  | (Ok (Some workflow), r) =>
      (Respond http.StatusOK (JSON_workflow (Some workflow)), r)
  end.

End WorkflowService.

(** * The device service *)

Module DeviceService.
Import Redis.

Record Device := mkDevice {
  ID : string;
  Name : string;
  Type_ : string;
  Status : string;
  Capabilities : list string;
  WorkflowID : string     (* omitempty *)
}.

(** Simulated lab devices. *)
Definition DEVICES : gmap string Device :=
  {[ "liquid-handler-1" :=
       mkDevice "liquid-handler-1" "Liquid Handler Alpha" "liquid_handler"
         "available" ["pipette"; "dispense"; "aspirate"] "";
     "incubator-1" :=
       mkDevice "incubator-1" "Incubator Beta" "incubator"
         "available" ["heat"; "cool"; "shake"] "";
     "plate-reader-1" :=
       mkDevice "plate-reader-1" "Plate Reader Gamma" "plate_reader"
         "available" ["absorbance"; "fluorescence"] "" ]}.

(** The store of the service: strings under the keys
    [device:<id>:status] and [device:<id>:workflow]. *)
Abbreviation Store := (Redis.t string).

Definition statusKey (deviceID : string) : string :=
  "device:" +:+ deviceID +:+ ":status".
Definition workflowKey (deviceID : string) : string :=
  "device:" +:+ deviceID +:+ ":workflow".

Definition getDeviceStatus (deviceID : string) (r : Store) : string * Store :=
  match GET (statusKey deviceID) r with
  | (Ok cached, r) => (cached, r)
  | (Error _, r) =>
      match DEVICES !! deviceID with
      | Some device => (Status device, r)
      | None => ("unknown", r)
      end
  end.

(** [workflowID] is the [*string] argument, [None] for nil.  The errors
    of the commands are dropped, as in the source. *)
Definition setDeviceStatus (deviceID status : string)
    (workflowID : option string) (r : Store) : Store :=
  let r := snd (SET (statusKey deviceID) status r) in
  match workflowID with
  | Some w =>
      if decide (w ≠ "") then snd (SET (workflowKey deviceID) w r)
      else snd (DEL (workflowKey deviceID) r)
  | None => snd (DEL (workflowKey deviceID) r)
  end.

(** [c.JSON(code, obj)]. *)
Definition JSON (code : Z) (obj : JsonObject) : PostResult :=
  Response code (Json obj).

(** [c.ShouldBindJSON(&req)] for the three request types.  A member
    tagged [binding:"required"] must be present and non-empty; a member
    left out otherwise decodes to the empty string. *)
Definition bindBookRequest (body : Payload) : option string :=
  match body with
  | Text _ => None
  | Json o =>
      match member "workflow_id" o with
      | Some w => if decide (w = "") then None else Some w
      | None => None
      end
  end.

Definition bindReleaseRequest (body : Payload) : option string :=
  match body with
  | Text _ => None
  | Json o =>
      match member "workflow_id" o with
      | Some w => Some w
      | None => Some ""
      end
  end.

Definition bindExecuteRequest (body : Payload) : option (string * string) :=
  match body with
  | Text _ => None
  | Json o =>
      match member "workflow_id" o, member "operation" o with
      | Some w, Some op =>
          if decide (w = "" ∨ op = "") then None else Some (w, op)
      | _, _ => None
      end
  end.

(** [strings.Split(s, sep)] for a one-byte separator. *)
Fixpoint split (sep : ascii) (s : string) : list string :=
  match s with
  | EmptyString => [EmptyString]
  | String c s' =>
      if decide (c = sep) then EmptyString :: split sep s'
      else match split sep s' with
           | seg :: segs => String c seg :: segs
           | [] => [String c EmptyString]
           end
  end.

(** The routes [router.POST] registers, with the value of the
    [:device_id] parameter. *)
Inductive Route :=
| book (device_id : string)
| release (device_id : string)
| execute (device_id : string).

(** The path of a request against the registered patterns
    [/devices/:device_id/book], [/devices/:device_id/release] and
    [/devices/:device_id/execute].  A parameter is one path segment.
    The path is matched as it is written: it is taken to hold no
    percent-escape and no character that ends or breaks a URL path, and
    the router's redirect of a path with a trailing slash is not
    followed. *)
Definition route (path : string) : option Route :=
  match split "/" path with
  | [root; devices; device_id; action] =>
      if decide (root = "" ∧ devices = "devices") then
        if decide (action = "book") then Some (book device_id)
        else if decide (action = "release") then Some (release device_id)
        else if decide (action = "execute") then Some (execute device_id)
        else None
      else None
  | _ => None
  end.

Section handlers.
(** The text of a binding error, [err.Error()], is left open. *)
Context (bindingError : Payload → string).

Definition bookDeviceHandler (deviceID : string) (body : Payload)
    (now : Time) (r : Store) : PostResult * Store :=
  match DEVICES !! deviceID with
  | None => (JSON http.StatusNotFound [("error", "Device not found")], r)
  | Some _ =>
      match bindBookRequest body with
      | None =>
          (JSON http.StatusBadRequest [("error", "workflow_id required")], r)
      | Some req_WorkflowID =>
          let '(currentStatus, r) := getDeviceStatus deviceID r in
          if decide (currentStatus ≠ "available") then
            (JSON http.StatusConflict [("error", "Device is not available")],
             r)
          else
            let r := setDeviceStatus deviceID "busy" (Some req_WorkflowID) r in
            (JSON http.StatusOK
               [("device_id", deviceID); ("status", "busy");
                ("workflow_id", req_WorkflowID);
                ("booked_at", formatRFC3339 now)], r)
      end
  end.

Definition releaseDeviceHandler (deviceID : string) (body : Payload)
    (now : Time) (r : Store) : PostResult * Store :=
  match DEVICES !! deviceID with
  | None => (JSON http.StatusNotFound [("error", "Device not found")], r)
  | Some _ =>
      let req_WorkflowID :=
        match bindReleaseRequest body with
        | Some w => w
        | None => ""   (* workflow_id is optional for release *)
        end in
      let '(got, r) := GET (workflowKey deviceID) r in
      (* err == nil && currentWorkflow != req.WorkflowID
                    && req.WorkflowID != "" *)
      let bookedByAnother :=
        match got with
        | Ok currentWorkflow =>
            bool_decide (currentWorkflow ≠ req_WorkflowID
                         ∧ req_WorkflowID ≠ "")
        | Error _ => false
        end in
      if bookedByAnother then
        (JSON http.StatusForbidden
           [("error", "Device is booked by another workflow")], r)
      else
        let r := setDeviceStatus deviceID "available" None r in
        (JSON http.StatusOK
           [("device_id", deviceID); ("status", "available");
            ("released_at", formatRFC3339 now)], r)
  end.

Definition executeOperationHandler (deviceID : string) (body : Payload)
    (now : Time) (r : Store) : PostResult * Store :=
  match DEVICES !! deviceID with
  | None => (JSON http.StatusNotFound [("error", "Device not found")], r)
  | Some _ =>
      match bindExecuteRequest body with
      | None =>
          (JSON http.StatusBadRequest [("error", bindingError body)], r)
      | Some (req_WorkflowID, req_Operation) =>
          let '(got, r) := GET (workflowKey deviceID) r in
          (* err != nil || currentWorkflow != req.WorkflowID *)
          let notBooked :=
            match got with
            | Ok currentWorkflow =>
                bool_decide (currentWorkflow ≠ req_WorkflowID)
            | Error _ => true
            end in
          if notBooked then
            (JSON http.StatusForbidden
               [("error", "Device not booked by this workflow")], r)
          else
            (JSON http.StatusOK
               [("device_id", deviceID); ("operation", req_Operation);
                ("status", "completed");
                ("executed_at", formatRFC3339 now)], r)
      end
  end.

(** The router on a POST request: the handler of the matching route, or
    gin's answer when there is none. *)
Definition servePOST (now : Time) (path : string) (body : JsonObject)
    (r : Store) : PostResult * Store :=
  match route path with
  | Some (book device_id) => bookDeviceHandler device_id (Json body) now r
  | Some (release device_id) =>
      releaseDeviceHandler device_id (Json body) now r
  | Some (execute device_id) =>
      executeOperationHandler device_id (Json body) now r
  | None => (Response http.StatusNotFound (Text "404 page not found"), r)
  end.

End handlers.

(** The workflow holding the reservation of a device, if any. *)
Definition reservation (r : Store) (deviceID : string) : option string :=
  kv r !! workflowKey deviceID.

(** The workflow identifier a release request carries: empty when the
    body has none or does not bind. *)
Definition requester (body : Payload) : string :=
  match bindReleaseRequest body with
  | Some w => w
  | None => ""
  end.

(** ** Reading a device *)

(** The body of a GET response. *)
Inductive DeviceBody :=
| H_error (msg : string)
| JSON_device (device : Device).

Definition with_Status (device : Device) (status : string) : Device :=
  mkDevice (ID device) (Name device) (Type_ device) status
    (Capabilities device) (WorkflowID device).
Definition with_WorkflowID (device : Device) (workflowID : string) : Device :=
  mkDevice (ID device) (Name device) (Type_ device) (Status device)
    (Capabilities device) workflowID.

Definition getDeviceHandler (deviceID : string) (r : Store)
  : (Z * DeviceBody) * Store :=
  match DEVICES !! deviceID with
  | None => ((http.StatusNotFound, H_error "Device not found"), r)
  | Some deviceInfo =>
      let device := deviceInfo in
      let '(status, r) := getDeviceStatus deviceID r in
      let device := with_Status device status in
      let '(got, r) := GET (workflowKey deviceID) r in
      let device :=
        match got with
        | Ok workflowID => with_WorkflowID device workflowID
        | Error _ => device
        end in
      ((http.StatusOK, JSON_device device), r)
  end.

(** ** Start-up *)

(** The body of the loop of [initializeDevices] for one device. *)
Definition initializeDevice (deviceID : string) (r : Store) : Store :=
  let '(got, r) := EXISTS (statusKey deviceID) r in
  (* err != nil || exists == 0 *)
  let missing :=
    match got with
    | Ok exists_ => bool_decide (exists_ = 0%Z)
    | Error _ => true
    end in
  if missing then setDeviceStatus deviceID "available" None r else r.

(** [for deviceID := range DEVICES]: Go leaves the order of the keys
    open, so the order the loop takes is the argument [order], a listing
    of the keys of [DEVICES]. *)
Definition initializeDevices (order : list string) (r : Store) : Store :=
  foldl (λ r deviceID, initializeDevice deviceID r) r order.

End DeviceService.

(** * The sample service *)

Module SampleService.
Import Redis.

Definition SAMPLES_KEY : string := "samples".

Record Location := mkLocation { Plate : string; Well : string }.

Record Sample := mkSample {
  Barcode : string;
  Name : string;
  Type_ : string;
  Location_ : Location;
  CreatedAt : string;
  UpdatedAt : string     (* omitempty *)
}.

Record ValidationResult := mkValidationResult {
  result_Barcode : string;
  result_Exists : bool
}.

Abbreviation Store := (Redis.t (gmap string Sample)).

Definition getAllSamples (r : Store) : result (gmap string Sample) * Store :=
  match GET SAMPLES_KEY r with
  | (Ok samples, r) => (Ok samples, r)
  | (Error Nil, r) => (Ok ∅, r)
  | (Error e, r) => (Error e, r)
  end.

Definition saveSamples (samples : gmap string Sample) (r : Store)
  : option error * Store :=
  SET SAMPLES_KEY samples r.

Definition initializeSamples (r : Store) : option error * Store :=
  let samples : gmap string Sample :=
    {[ "SAMPLE001" :=
         mkSample "SAMPLE001" "Blood Sample A" "blood"
           (mkLocation "PLATE-01" "A1") "2025-01-15T10:00:00Z" "";
       "SAMPLE002" :=
         mkSample "SAMPLE002" "Tissue Sample B" "tissue"
           (mkLocation "PLATE-01" "A2") "2025-01-15T10:05:00Z" "";
       "SAMPLE003" :=
         mkSample "SAMPLE003" "Saliva Sample C" "saliva"
           (mkLocation "PLATE-02" "B1") "2025-01-15T10:10:00Z" "" ]} in
  saveSamples samples r.

Inductive Body :=
| H_error (msg : string)
| JSON_results (results : list ValidationResult).

Inductive Outcome :=
| Respond (code : Z) (body : Body).

(** [_, exists := samples[barcode]]. *)
Definition exists_ (samples : gmap string Sample) (barcode : string) : bool :=
  match samples !! barcode with
  | Some _ => true
  | None => false
  end.

(** The loop [for i, barcode := range req.Barcodes] from index [i] on:
    each turn stores into [results[i]]. *)
Fixpoint validateLoop (samples : gmap string Sample) (i : nat)
    (barcodes : list string) (results : list ValidationResult)
  : list ValidationResult :=
  match barcodes with
  | [] => results
  | barcode :: rest =>
      validateLoop samples (S i) rest
        (<[i := mkValidationResult barcode (exists_ samples barcode)]>
           results)
  end.

(** [body] is the [barcodes] member decoded by [c.ShouldBindJSON(&req)];
    [None] when the request does not bind: the body is not JSON, or the
    required member is missing or null. *)
Definition validateSamplesHandler (body : option (list string)) (r : Store)
  : Outcome * Store :=
  match body with
  | None =>
      (Respond http.StatusBadRequest (H_error "barcodes array is required"),
       r)
  | Some req_Barcodes =>
      match getAllSamples r with
      | (Error _, r) =>
          (Respond http.StatusInternalServerError
             (H_error "Failed to retrieve samples"), r)
      | (Ok samples, r) =>
          (* make([]ValidationResult, len(req.Barcodes)) *)
          let results :=
            replicate (length req_Barcodes) (mkValidationResult "" false) in
          let results := validateLoop samples 0 req_Barcodes results in
          (Respond http.StatusOK (JSON_results results), r)
      end
  end.

(** The collection a store holds: empty when the key is missing. *)
Definition collection (r : Store) : gmap string Sample :=
  match kv r !! SAMPLES_KEY with
  | Some samples => samples
  | None => ∅
  end.

(** ** Reading, creating and moving a sample *)

Record CreateSampleRequest := mkCreateSampleRequest {
  req_Barcode : string;     (* binding:"required" *)
  req_Name : string;
  req_Type : string;
  req_Location : Location
}.

(** [c.ShouldBindJSON(&req)] for a [CreateSampleRequest]: [body] is the
    decoded request, [None] when the body is not JSON of that shape; the
    required barcode must not be empty. *)
Definition bindCreateSampleRequest (body : option CreateSampleRequest)
  : option CreateSampleRequest :=
  match body with
  | None => None
  | Some req => if decide (req_Barcode req = "") then None else Some req
  end.

(** What these handlers give to [c.JSON]: an error object, or a sample. *)
Inductive Reply :=
| JSON_error (code : Z) (msg : string)
| JSON_sample (code : Z) (sample : Sample).

Definition getSampleHandler (barcode : string) (r : Store) : Reply * Store :=
  match getAllSamples r with
  | (Error _, r) =>
      (JSON_error http.StatusInternalServerError "Failed to retrieve samples",
       r)
  | (Ok samples, r) =>
      match samples !! barcode with
      | None => (JSON_error http.StatusNotFound "Sample not found", r)
      | Some sample => (JSON_sample http.StatusOK sample, r)
      end
  end.

Definition createSampleHandler (body : option CreateSampleRequest)
    (now : Time) (r : Store) : Reply * Store :=
  match bindCreateSampleRequest body with
  | None => (JSON_error http.StatusBadRequest "barcode is required", r)
  | Some req =>
      match getAllSamples r with
      | (Error _, r) =>
          (JSON_error http.StatusInternalServerError
             "Failed to retrieve samples", r)
      | (Ok samples, r) =>
          match samples !! req_Barcode req with
          | Some _ =>
              (JSON_error http.StatusConflict "Sample already exists", r)
          | None =>
              let sample :=
                mkSample (req_Barcode req) (req_Name req) (req_Type req)
                  (req_Location req) (formatRFC3339 now) "" in
              match saveSamples (<[req_Barcode req := sample]> samples) r with
              | (Some _, r) =>
                  (JSON_error http.StatusInternalServerError
                     "Failed to save sample", r)
              | (None, r) => (JSON_sample http.StatusCreated sample, r)
              end
          end
      end
  end.

(** [body] is the location [c.ShouldBindJSON(&req)] has bound, [None]
    when binding fails; the sample is looked up before the body is
    bound. *)
Definition updateSampleLocationHandler (barcode : string)
    (body : option Location) (now : Time) (r : Store) : Reply * Store :=
  match getAllSamples r with
  | (Error _, r) =>
      (JSON_error http.StatusInternalServerError "Failed to retrieve samples",
       r)
  | (Ok samples, r) =>
      match samples !! barcode with
      | None => (JSON_error http.StatusNotFound "Sample not found", r)
      | Some sample =>
          match body with
          | None =>
              (JSON_error http.StatusBadRequest "location is required", r)
          | Some location =>
              let sample :=
                mkSample (Barcode sample) (Name sample) (Type_ sample)
                  location (CreatedAt sample) (formatRFC3339 now) in
              match saveSamples (<[barcode := sample]> samples) r with
              | (Some _, r) =>
                  (JSON_error http.StatusInternalServerError
                     "Failed to update sample", r)
              | (None, r) => (JSON_sample http.StatusOK sample, r)
              end
          end
      end
  end.

(** ** Start-up *)

(** The part of [main] that seeds the store: [None] is [log.Fatalf]. *)
Definition seed (r : Store) : option Store :=
  match getAllSamples r with
  | (Error _, _) => None
  | (Ok existingSamples, r) =>
      if decide (size existingSamples = 0) then
        match initializeSamples r with
        | (Some _, _) => None
        | (None, r) => Some r
        end
      else Some r
  end.

(** ** Sequences of requests *)

Inductive Request :=
| GET_sample (barcode : string)
| POST_samples (body : option CreateSampleRequest) (now : Time)
| PUT_location (barcode : string) (body : option Location) (now : Time)
| POST_validate (body : option (list string)).

(** The store after a request. *)
Definition serve (q : Request) (r : Store) : Store :=
  match q with
  | GET_sample barcode => (getSampleHandler barcode r).2
  | POST_samples body now => (createSampleHandler body now r).2
  | PUT_location barcode body now =>
      (updateSampleLocationHandler barcode body now r).2
  | POST_validate body => (validateSamplesHandler body r).2
  end.

Definition run (qs : list Request) (r : Store) : Store :=
  foldl (λ r q, serve q r) r qs.

End SampleService.

(** * The vocabulary of the properties *)

(** The errors of [Start] and [ExecuteStep], read off the responses the
    handlers write. *)
Module Errors.
Import WorkflowService.

Definition InvalidStateError (out : Outcome) : Prop :=
  out = Respond http.StatusBadRequest
          (H_error "Workflow already started or completed")
  ∨ out = Respond http.StatusBadRequest (H_error "Workflow is not running").

Definition IndexError (out : Outcome) : Prop :=
  out = Respond http.StatusBadRequest (H_error "Invalid step index").

Definition DependencyError (out : Outcome) : Prop :=
  ∃ err,
    out = Respond http.StatusInternalServerError
            (H_error ("Failed to communicate with device service: " +:+ err)).

Definition BookingRejectedError (out : Outcome) : Prop :=
  ∃ code details,
    code ≠ http.StatusOK
    ∧ out = Respond code (H_error_details "Failed to book device" details).

Definition NotFoundError (out : Outcome) : Prop :=
  out = Respond http.StatusNotFound (H_error "Workflow not found").

Definition ReleaseRejectedError (out : Outcome) : Prop :=
  ∃ code details,
    code ≠ http.StatusOK
    ∧ out = Respond code (H_error_details "Failed to release device" details).

Definition ExecutionRejectedError (out : Outcome) : Prop :=
  ∃ code details,
    code ≠ http.StatusOK
    ∧ out = Respond code (H_error_details "Failed to execute step" details).

End Errors.

(** A timestamp field is set when it is not the empty string (the
    field is then present in the JSON of the record). *)
Definition timestamps_consistent (w : WorkflowService.Workflow) : Prop :=
  (WorkflowService.StartedAt w ≠ ""
   ↔ WorkflowService.Status w = WorkflowService.StatusRunning
     ∨ WorkflowService.Status w = WorkflowService.StatusCompleted)
  ∧ (WorkflowService.CompletedAt w ≠ ""
     ↔ WorkflowService.Status w = WorkflowService.StatusCompleted).

(** Records and stores the examples below are run on. *)
Module Fixture.
Import WorkflowService.

Definition pcr_run (status : WorkflowStatus) (startedAt : string)
  : Workflow :=
  mkWorkflow "wf-1" "PCR Run" "liquid-handler-1" ["SAMPLE001"]
    ["pipette"; "heat"] status "2025-01-15T10:00:00Z" startedAt "".

Definition empty_run : Workflow :=
  mkWorkflow "wf-2" "Dry Run" "incubator-1" [] [] StatusCreated
    "2025-01-15T10:00:00Z" "" "".

Definition store_of (workflows : gmap string Workflow) : Store :=
  Redis.mk {[ WORKFLOWS_KEY := workflows ]} [].

Definition created_store : Store :=
  store_of {[ "wf-1" := pcr_run StatusCreated ""; "wf-2" := empty_run ]}.

Definition running_store : Store :=
  store_of {[ "wf-1" := pcr_run StatusRunning "2025-01-15T10:01:00Z";
              "wf-2" := empty_run ]}.

Definition fresh_store : Store := Redis.mk ∅ [].

Definition noon : Time := mkTime 2025 1 15 12 0 0.

(** A device service that cannot be reached. *)
Definition unreachable (path : string) (body : JsonObject) (n : unit)
  : PostResult * unit :=
  (TransportError "connection refused", n).

(** A device service that grants every request. *)
Definition granting (path : string) (body : JsonObject) (n : unit)
  : PostResult * unit :=
  (Response http.StatusOK (Json [("status", "ok")]), n).

(** The device store with nothing booked, and with the liquid handler
    booked by [wf-1]. *)
Definition idle_devices : DeviceService.Store := Redis.mk ∅ [].

Definition booked_devices : DeviceService.Store :=
  Redis.mk {[ "device:liquid-handler-1:status" := "busy";
              "device:liquid-handler-1:workflow" := "wf-1" ]} [].

Definition no_text (body : Payload) : string := "".

Definition pcr_request : CreateWorkflowRequest :=
  mkCreateWorkflowRequest "PCR Run" "liquid-handler-1" ["SAMPLE001"]
    ["pipette"; "heat"].

(** Create, start, run the first step of, and complete one workflow. *)
Definition full_run : list Request :=
  [ POST_workflows (Some pcr_request) "uuid-1" noon;
    POST_start "uuid-1" noon;
    POST_execute_step "uuid-1" (Some 0%Z);
    POST_complete "uuid-1" noon ].

(** The sample store as [main] initialises it. *)
Definition sample_store : SampleService.Store :=
  (SampleService.initializeSamples (Redis.mk ∅ [])).2.

(** A device service that grants every request and keeps a log of the
    requests it gets, latest first. *)
Definition recording (path : string) (body : JsonObject)
    (log : list (string * JsonObject))
  : PostResult * list (string * JsonObject) :=
  (Response http.StatusOK (Json [("status", "ok")]), (path, body) :: log).

Definition completed_store : Store :=
  store_of {[ "wf-1" :=
                mkWorkflow "wf-1" "PCR Run" "liquid-handler-1" ["SAMPLE001"]
                  ["pipette"; "heat"] StatusCompleted "2025-01-15T10:00:00Z"
                  "2025-01-15T10:01:00Z" "2025-01-15T10:02:00Z" ]}.

Definition blood_request : SampleService.CreateSampleRequest :=
  SampleService.mkCreateSampleRequest "SAMPLE004" "Blood Sample D" "blood"
    (SampleService.mkLocation "PLATE-02" "B2").

Definition first_sample : SampleService.Sample :=
  SampleService.mkSample "SAMPLE001" "Blood Sample A" "blood"
    (SampleService.mkLocation "PLATE-01" "A1") "2025-01-15T10:00:00Z" "".

Definition duplicate_request : SampleService.CreateSampleRequest :=
  SampleService.mkCreateSampleRequest "SAMPLE001" "Blood Sample A2" "blood"
    (SampleService.mkLocation "PLATE-03" "C1").

Definition sample_requests : list SampleService.Request :=
  [ SampleService.POST_samples (Some duplicate_request) noon;
    SampleService.PUT_location "SAMPLE001"
      (Some (SampleService.mkLocation "PLATE-09" "H12")) noon;
    SampleService.POST_samples (Some blood_request) noon ].




End Fixture.

(** * Properties *)

(** ** Redis commands *)

Section RedisFacts.
Import Redis.
Context {V : Type}.
Implicit Types (r : Redis.t V) (key : string).

Lemma tick_kv r : kv (tick r).2 = kv r.
Proof. unfold tick. by destruct (faults r). Qed.

Lemma tick_no_fault r : faults r = [] → tick r = (false, r).
Proof. unfold tick. by intros ->. Qed.

(** A read never changes the content, and it answers with the value
    under the key unless the command fails. *)
Lemma GET_kv key r : kv (GET key r).2 = kv r.
Proof.
  unfold GET. pose proof (tick_kv r) as Ht.
  destruct (tick r) as [[] r1]; simpl in *; [done|].
  rewrite Ht. by destruct (kv r !! key).
Qed.

Lemma GET_Ok key r v r' : GET key r = (Ok v, r') → kv r !! key = Some v.
Proof.
  unfold GET. pose proof (tick_kv r) as Ht.
  destruct (tick r) as [[] r1]; simpl in *; [done|].
  rewrite Ht. destruct (kv r !! key); congruence.
Qed.

Lemma GET_Nil key r r' : GET key r = (Error Nil, r') → kv r !! key = None.
Proof.
  unfold GET. pose proof (tick_kv r) as Ht.
  destruct (tick r) as [[] r1]; simpl in *; [done|].
  rewrite Ht. destruct (kv r !! key); congruence.
Qed.

Lemma GET_no_fault key r :
  faults r = [] →
  GET key r = (match kv r !! key with
               | Some v => Ok v
               | None => Error Nil
               end, r).
Proof.
  intros Hf. unfold GET. rewrite (tick_no_fault _ Hf).
  by destruct (kv r !! key).
Qed.

(** A write either fails and leaves the content alone, or succeeds and
    binds the key. *)
Lemma SET_cases key v r :
  (∃ e, (SET key v r).1 = Some e ∧ kv (SET key v r).2 = kv r)
  ∨ ((SET key v r).1 = None ∧ kv (SET key v r).2 = <[key := v]> (kv r)).
Proof.
  unfold SET. pose proof (tick_kv r) as Ht.
  destruct (tick r) as [[] r1]; simpl in *.
  - left. eauto.
  - right. by rewrite Ht.
Qed.

Lemma SET_no_fault key v r :
  faults r = [] → SET key v r = (None, mk (<[key := v]> (kv r)) []).
Proof. intros Hf. unfold SET. rewrite (tick_no_fault _ Hf). by rewrite Hf. Qed.

Lemma DEL_cases key r :
  (∃ e, (DEL key r).1 = Some e ∧ kv (DEL key r).2 = kv r)
  ∨ ((DEL key r).1 = None ∧ kv (DEL key r).2 = delete key (kv r)).
Proof.
  unfold DEL. pose proof (tick_kv r) as Ht.
  destruct (tick r) as [[] r1]; simpl in *.
  - left. eauto.
  - right. by rewrite Ht.
Qed.

Lemma DEL_no_fault key r :
  faults r = [] → DEL key r = (None, mk (delete key (kv r)) []).
Proof. intros Hf. unfold DEL. rewrite (tick_no_fault _ Hf). by rewrite Hf. Qed.

End RedisFacts.

(** ** The clock *)

Lemma formatRFC3339_nonempty (t : Time) : formatRFC3339 t ≠ "".
Proof. unfold formatRFC3339, pad4. simpl. discriminate. Qed.

Example formatRFC3339_sample :
  formatRFC3339 (mkTime 2025 1 15 10 0 0) = "2025-01-15T10:00:00Z".
Proof. reflexivity. Qed.

(** ** The workflow repository *)

Section RepositoryFacts.
Import Redis WorkflowService.
Implicit Types (r : Redis.t (gmap string Workflow)).

Lemma getAllWorkflows_kv r : kv (getAllWorkflows r).2 = kv r.
Proof.
  unfold getAllWorkflows. pose proof (GET_kv WORKFLOWS_KEY r) as Hg.
  destruct (GET WORKFLOWS_KEY r) as [[ws|[]] r1]; done.
Qed.

Lemma getAllWorkflows_Ok r workflows r' :
  getAllWorkflows r = (Ok workflows, r') →
  workflows = collection r ∧ kv r' = kv r.
Proof.
  intros H. pose proof (getAllWorkflows_kv r) as Hk. rewrite H in Hk.
  split; [|done]. unfold getAllWorkflows in H. unfold collection.
  destruct (GET WORKFLOWS_KEY r) as [[ws|[]] r1] eqn:Hg; simplify_eq.
  - by rewrite (GET_Ok _ _ _ _ Hg).
  - by rewrite (GET_Nil _ _ _ Hg).
Qed.

Lemma getAllWorkflows_no_fault r :
  faults r = [] → getAllWorkflows r = (Ok (collection r), r).
Proof.
  intros Hf. unfold getAllWorkflows, collection.
  rewrite (GET_no_fault _ _ Hf). by destruct (kv r !! WORKFLOWS_KEY).
Qed.

Lemma getWorkflow_kv workflowID r : kv (getWorkflow workflowID r).2 = kv r.
Proof.
  unfold getWorkflow. pose proof (getAllWorkflows_kv r) as Hk.
  by destruct (getAllWorkflows r) as [[ws|e] r1].
Qed.

Lemma getWorkflow_Ok workflowID r found r' :
  getWorkflow workflowID r = (Ok found, r') →
  found = collection r !! workflowID ∧ kv r' = kv r.
Proof.
  unfold getWorkflow.
  destruct (getAllWorkflows r) as [[ws|e] r1] eqn:Hg; intros; simplify_eq.
  by destruct (getAllWorkflows_Ok _ _ _ Hg) as [-> ?].
Qed.

Lemma getWorkflow_no_fault workflowID r :
  faults r = [] →
  getWorkflow workflowID r = (Ok (collection r !! workflowID), r).
Proof.
  intros Hf. unfold getWorkflow. by rewrite (getAllWorkflows_no_fault _ Hf).
Qed.

Lemma collection_insert r workflows :
  kv r !! WORKFLOWS_KEY = Some workflows → collection r = workflows.
Proof. unfold collection. by intros ->. Qed.

(** [updateWorkflow] either leaves the store as it was, or it has found
    the record and stored the collection with that one record updated. *)
Lemma updateWorkflow_cases workflowID updates r :
  kv (updateWorkflow workflowID updates r).2 = kv r
  ∨ ∃ workflow,
      collection r !! workflowID = Some workflow
      ∧ (updateWorkflow workflowID updates r).1
        = Ok (Some (applyUpdates updates workflow))
      ∧ kv (updateWorkflow workflowID updates r).2
        = <[WORKFLOWS_KEY :=
              <[workflowID := applyUpdates updates workflow]> (collection r)]>
            (kv r).
Proof.
  unfold updateWorkflow.
  destruct (getAllWorkflows r) as [[ws|e] r1] eqn:Hg; [|left].
  2:{ pose proof (getAllWorkflows_kv r) as Hk. by rewrite Hg in Hk. }
  destruct (getAllWorkflows_Ok _ _ _ Hg) as [-> Hk].
  destruct (collection r !! workflowID) as [w|] eqn:Hw; [|by left].
  unfold saveWorkflows.
  destruct
    (SET_cases WORKFLOWS_KEY (<[workflowID := applyUpdates updates w]> (collection r)) r1)
    as [(e & He & Hs)|[He Hs]];
    destruct (SET _ _ r1) as [oe r2]; simpl in *; subst oe.
  - left. simpl. congruence.
  - right. exists w. simpl. by rewrite Hs, Hk.
Qed.

End RepositoryFacts.

Section UpdateFrame.
Import Redis WorkflowService.
Implicit Types (r : Redis.t (gmap string Workflow)).

Lemma collection_kv r r' : kv r' = kv r → collection r' = collection r.
Proof. unfold collection. by intros ->. Qed.

Lemma collection_stored r workflows key_kv :
  key_kv = <[WORKFLOWS_KEY := workflows]> (kv r) →
  ∀ r', kv r' = key_kv → collection r' = workflows.
Proof.
  intros -> r' Hk. unfold collection. by rewrite Hk, lookup_insert_eq.
Qed.

(** The fields [applyUpdates] has no assignment for. *)
Lemma applyUpdates_fixed updates workflow :
  let updated := applyUpdates updates workflow in
  ID updated = ID workflow
  ∧ DeviceID updated = DeviceID workflow
  ∧ SampleBarcodes updated = SampleBarcodes workflow
  ∧ Steps updated = Steps workflow
  ∧ CreatedAt updated = CreatedAt workflow.
Proof.
  unfold applyUpdates.
  destruct (assert_string (updates !! "name")),
    (assert_WorkflowStatus (updates !! "status")),
    (assert_string (updates !! "started_at")),
    (assert_string (updates !! "completed_at")); done.
Qed.

(** A field whose key the update does not hold keeps its value. *)
Lemma applyUpdates_unmentioned updates workflow :
  let updated := applyUpdates updates workflow in
  (updates !! "name" = None → Name updated = Name workflow)
  ∧ (updates !! "status" = None → Status updated = Status workflow)
  ∧ (updates !! "started_at" = None → StartedAt updated = StartedAt workflow)
  ∧ (updates !! "completed_at" = None
     → CompletedAt updated = CompletedAt workflow).
Proof.
  unfold applyUpdates. repeat split; intros ->; simpl;
    destruct (assert_string (updates !! "name")),
      (assert_WorkflowStatus (updates !! "status")),
      (assert_string (updates !! "started_at")),
      (assert_string (updates !! "completed_at")); done.
Qed.

(** C8.  Updating an existing workflow through [updateWorkflow] leaves
    every other workflow of the collection as it was; in the updated
    record the fields id, device_id, sample_barcodes, steps and
    created_at are the old ones, and so is each of name, status,
    started_at and completed_at whose key the update does not
    contain. *)
Theorem updateWorkflow_frame workflowID updates r workflow :
  collection r !! workflowID = Some workflow →
  (∀ other,
     other ≠ workflowID →
     collection (updateWorkflow workflowID updates r).2 !! other
     = collection r !! other)
  ∧ ∃ stored,
      collection (updateWorkflow workflowID updates r).2 !! workflowID
      = Some stored
      ∧ ID stored = ID workflow
      ∧ DeviceID stored = DeviceID workflow
      ∧ SampleBarcodes stored = SampleBarcodes workflow
      ∧ Steps stored = Steps workflow
      ∧ CreatedAt stored = CreatedAt workflow
      ∧ (updates !! "name" = None → Name stored = Name workflow)
      ∧ (updates !! "status" = None → Status stored = Status workflow)
      ∧ (updates !! "started_at" = None
         → StartedAt stored = StartedAt workflow)
      ∧ (updates !! "completed_at" = None
         → CompletedAt stored = CompletedAt workflow).
Proof.
  intros Hw.
  destruct (updateWorkflow_cases workflowID updates r)
    as [Hk|(w & Hw' & _ & Hk)].
  - rewrite (collection_kv _ _ Hk). split; [done|].
    exists workflow. by repeat split.
  - assert (w = workflow) as -> by congruence.
    rewrite (collection_stored r _ _ eq_refl _ Hk). split.
    + intros other Hne. by rewrite lookup_insert_ne.
    + exists (applyUpdates updates workflow). rewrite lookup_insert_eq.
      pose proof (applyUpdates_fixed updates workflow) as (?&?&?&?&?).
      pose proof (applyUpdates_unmentioned updates workflow) as (?&?&?&?).
      by repeat split.
Qed.

End UpdateFrame.

Lemma updateWorkflow_frame_witness :
  WorkflowService.collection Fixture.created_store !! "wf-1"
  = Some (Fixture.pcr_run WorkflowService.StatusCreated "")
  ∧ ∃ stored,
      WorkflowService.collection
        (WorkflowService.updateWorkflow "wf-1"
           {[ "name" := WorkflowService.any_string "PCR Run 2" ]}
           Fixture.created_store).2 !! "wf-1" = Some stored
      ∧ WorkflowService.Status stored = WorkflowService.StatusCreated
      ∧ WorkflowService.StartedAt stored = "".
Proof.
  split; [reflexivity|].
  destruct (updateWorkflow_frame "wf-1"
              {[ "name" := WorkflowService.any_string "PCR Run 2" ]}
              Fixture.created_store
              (Fixture.pcr_run WorkflowService.StatusCreated "")
              eq_refl)
    as (_ & stored & Hs & _ & _ & _ & _ & _ & _ & Hst & Hsa & _).
  exists stored. split; [exact Hs|]. split.
  - rewrite Hst; reflexivity.
  - rewrite Hsa; reflexivity.
Defined.

(** ** The coordinator *)

Section CoordinatorFacts.
Import Redis WorkflowService.
Context {N : Type} (httpPost : string → JsonObject → N → PostResult * N).
Implicit Types (s : World (N := N)) (r : Redis.t (gmap string Workflow)).

Lemma applyUpdates_start now workflow :
  applyUpdates {[ "status" := any_WorkflowStatus StatusRunning;
                  "started_at" := any_string (formatRFC3339 now) ]} workflow
  = with_StartedAt (with_Status workflow StatusRunning) (formatRFC3339 now).
Proof. reflexivity. Qed.

Lemma applyUpdates_complete now workflow :
  applyUpdates {[ "status" := any_WorkflowStatus StatusCompleted;
                  "completed_at" := any_string (formatRFC3339 now) ]} workflow
  = with_CompletedAt (with_Status workflow StatusCompleted)
      (formatRFC3339 now).
Proof. reflexivity. Qed.

(** What each handler can do to the collection. *)

Lemma createWorkflowHandler_cases body uuid now s :
  kv (redis (createWorkflowHandler body uuid now s).2) = kv (redis s)
  ∨ ∃ req,
      bindCreateWorkflowRequest body = Some req
      ∧ collection (redis (createWorkflowHandler body uuid now s).2)
        = <[uuid := mkWorkflow uuid (req_Name req) (req_DeviceID req)
                      (req_SampleBarcodes req) (req_Steps req) StatusCreated
                      (formatRFC3339 now) "" ""]> (collection (redis s)).
Proof.
  unfold createWorkflowHandler.
  destruct (bindCreateWorkflowRequest body) as [req|]; [|by left].
  destruct (getAllWorkflows (redis s)) as [[ws|e] r1] eqn:Hg.
  2:{ left. pose proof (getAllWorkflows_kv (redis s)) as Hk.
      by rewrite Hg in Hk. }
  destruct (getAllWorkflows_Ok _ _ _ Hg) as [-> Hk]. unfold saveWorkflows.
  match goal with |- context [SET ?k ?v r1] =>
    destruct (SET_cases k v r1) as [(e & He & Hs)|[He Hs]];
    destruct (SET k v r1) as [oe r2]; simpl in *; subst oe
  end.
  - left. simpl. congruence.
  - right. exists req. split; [done|]. simpl.
    apply (collection_stored r1 _ _ eq_refl). by rewrite Hs.
Qed.

Lemma startWorkflowHandler_cases workflowID now s :
  kv (redis (startWorkflowHandler httpPost workflowID now s).2)
  = kv (redis s)
  ∨ ∃ workflow,
      collection (redis s) !! workflowID = Some workflow
      ∧ Status workflow = StatusCreated
      ∧ (∃ found,
           (startWorkflowHandler httpPost workflowID now s).1
           = Respond http.StatusOK (JSON_workflow found))
      ∧ collection (redis (startWorkflowHandler httpPost workflowID now s).2)
        = <[workflowID :=
              with_StartedAt (with_Status workflow StatusRunning)
                (formatRFC3339 now)]> (collection (redis s)).
Proof.
  unfold startWorkflowHandler.
  destruct (getWorkflow workflowID (redis s)) as [[[w|]|e] r1] eqn:Hg;
    pose proof (getWorkflow_kv workflowID (redis s)) as Hk;
    rewrite Hg in Hk; simpl in Hk; try by left.
  destruct (getWorkflow_Ok _ _ _ _ Hg) as [Hw _].
  destruct (decide (Status w ≠ StatusCreated)) as [|Hst]; [by left|].
  apply dec_stable in Hst.
  destruct (httpPost _ _ (net s)) as [[err|code body] n1]; [by left|].
  destruct (decide (code ≠ http.StatusOK)); [by left|].
  match goal with |- context [updateWorkflow workflowID ?u r1] =>
    destruct (updateWorkflow_cases workflowID u r1) as [Hu|(w' & Hw' & Hr & Hu)];
    destruct (updateWorkflow workflowID u r1) as [res r2]
  end; simpl in *.
  - left. pose proof (getWorkflow_kv workflowID r2) as Hk2.
    destruct res; [|simpl; congruence].
    destruct (getWorkflow workflowID r2) as [[?|?] r3]; simpl in *; congruence.
  - right. rewrite (collection_kv _ _ Hk) in Hw'.
    assert (w' = w) as -> by congruence. exists w.
    split; [done|]. split; [done|]. subst res.
    pose proof (getWorkflow_kv workflowID r2) as Hk2.
    destruct (getWorkflow workflowID r2) as [[?|?] r3]; simpl in *;
      (split; [eauto|]);
      apply (collection_stored r1 _ _ eq_refl); rewrite Hk2, Hu;
      by rewrite (collection_kv _ _ Hk).
Qed.

Lemma completeWorkflowHandler_cases workflowID now s :
  kv (redis (completeWorkflowHandler httpPost workflowID now s).2)
  = kv (redis s)
  ∨ ∃ workflow,
      collection (redis s) !! workflowID = Some workflow
      ∧ Status workflow = StatusRunning
      ∧ (∃ found,
           (completeWorkflowHandler httpPost workflowID now s).1
           = Respond http.StatusOK (JSON_workflow found))
      ∧ collection
          (redis (completeWorkflowHandler httpPost workflowID now s).2)
        = <[workflowID :=
              with_CompletedAt (with_Status workflow StatusCompleted)
                (formatRFC3339 now)]> (collection (redis s)).
Proof.
  unfold completeWorkflowHandler.
  destruct (getWorkflow workflowID (redis s)) as [[[w|]|e] r1] eqn:Hg;
    pose proof (getWorkflow_kv workflowID (redis s)) as Hk;
    rewrite Hg in Hk; simpl in Hk; try by left.
  destruct (getWorkflow_Ok _ _ _ _ Hg) as [Hw _].
  destruct (decide (Status w ≠ StatusRunning)) as [|Hst]; [by left|].
  apply dec_stable in Hst.
  destruct (httpPost _ _ (net s)) as [[err|code body] n1]; [by left|].
  destruct (decide (code ≠ http.StatusOK)); [by left|].
  match goal with |- context [updateWorkflow workflowID ?u r1] =>
    destruct (updateWorkflow_cases workflowID u r1) as [Hu|(w' & Hw' & Hr & Hu)];
    destruct (updateWorkflow workflowID u r1) as [res r2]
  end; simpl in *.
  - left. pose proof (getWorkflow_kv workflowID r2) as Hk2.
    destruct res; [|simpl; congruence].
    destruct (getWorkflow workflowID r2) as [[?|?] r3]; simpl in *; congruence.
  - right. rewrite (collection_kv _ _ Hk) in Hw'.
    assert (w' = w) as -> by congruence. exists w.
    split; [done|]. split; [done|]. subst res.
    pose proof (getWorkflow_kv workflowID r2) as Hk2.
    destruct (getWorkflow workflowID r2) as [[?|?] r3]; simpl in *;
      (split; [eauto|]);
      apply (collection_stored r1 _ _ eq_refl); rewrite Hk2, Hu;
      by rewrite (collection_kv _ _ Hk).
Qed.

(** [ExecuteStep] issues reads only. *)
Lemma executeStepHandler_kv workflowID body s :
  kv (redis (executeStepHandler httpPost workflowID body s).2)
  = kv (redis s).
Proof.
  unfold executeStepHandler.
  pose proof (getWorkflow_kv workflowID (redis s)) as Hk.
  destruct (getWorkflow workflowID (redis s)) as [[[w|]|e] r1];
    simpl in Hk; try done.
  destruct (decide (Status w ≠ StatusRunning)); [done|].
  destruct (decide (_ >= _)%Z); [done|].
  destruct (index _ _); [|done].
  destruct (httpPost _ _ (net s)) as [[err|code payload] n1]; [done|].
  by destruct (decide (code ≠ http.StatusOK)).
Qed.

(** C9.  Whatever the request and whatever its outcome, the content of
    the store after [executeStepHandler] is the content before it, and
    so every workflow record is found as it was, status and timestamps
    included: the handler never writes to the workflow collection. *)
Theorem executeStepHandler_store_unchanged workflowID body s :
  kv (redis (executeStepHandler httpPost workflowID body s).2)
  = kv (redis s)
  ∧ ∀ id,
      collection (redis (executeStepHandler httpPost workflowID body s).2)
      !! id
      = collection (redis s) !! id.
Proof.
  pose proof (executeStepHandler_kv workflowID body s) as Hk.
  split; [exact Hk|]. intros id. unfold collection. by rewrite Hk.
Qed.

End CoordinatorFacts.

(** ** Start and ExecuteStep, request by request *)

Section CoordinatorRequests.
Import Redis WorkflowService.
Context {N : Type} (httpPost : string → JsonObject → N → PostResult * N).
Implicit Types (s : World (N := N)) (r : Redis.t (gmap string Workflow)).

(** The three ways [Start] fails after it has found the workflow. *)

Lemma startWorkflowHandler_not_created workflowID now s workflow r1 :
  getWorkflow workflowID (redis s) = (Ok (Some workflow), r1) →
  Status workflow ≠ StatusCreated →
  startWorkflowHandler httpPost workflowID now s
  = (Respond http.StatusBadRequest
       (H_error "Workflow already started or completed"),
     mkWorld r1 (net s)).
Proof.
  intros Hg Hst. unfold startWorkflowHandler. rewrite Hg.
  by destruct (decide (Status workflow ≠ StatusCreated)).
Qed.

Lemma startWorkflowHandler_transport_failure workflowID now s workflow r1
    err n :
  getWorkflow workflowID (redis s) = (Ok (Some workflow), r1) →
  Status workflow = StatusCreated →
  httpPost ("/device/" +:+ DeviceID workflow +:+ "/reserve")
    [("workflow_id", workflowID)] (net s) = (TransportError err, n) →
  startWorkflowHandler httpPost workflowID now s
  = (Respond http.StatusInternalServerError
       (H_error ("Failed to communicate with device service: " +:+ err)),
     mkWorld r1 n).
Proof.
  intros Hg Hst Hp. unfold startWorkflowHandler. rewrite Hg.
  destruct (decide (Status workflow ≠ StatusCreated)); [done|].
  by rewrite Hp.
Qed.

Lemma startWorkflowHandler_rejected workflowID now s workflow r1
    code body n :
  getWorkflow workflowID (redis s) = (Ok (Some workflow), r1) →
  Status workflow = StatusCreated →
  httpPost ("/device/" +:+ DeviceID workflow +:+ "/reserve")
    [("workflow_id", workflowID)] (net s) = (Response code body, n) →
  code ≠ http.StatusOK →
  startWorkflowHandler httpPost workflowID now s
  = (Respond code
       (H_error_details "Failed to book device" (unmarshalObject body)),
     mkWorld r1 n).
Proof.
  intros Hg Hst Hp Hc. unfold startWorkflowHandler. rewrite Hg.
  destruct (decide (Status workflow ≠ StatusCreated)); [done|].
  rewrite Hp. by destruct (decide (code ≠ http.StatusOK)).
Qed.

(** C5.  When [Start] answers with an InvalidStateError, a
    DependencyError or a BookingRejectedError, the content of the store
    after the request is the content before it. *)
Theorem startWorkflowHandler_failure_leaves_store workflowID now s :
  Errors.InvalidStateError (startWorkflowHandler httpPost workflowID now s).1
  ∨ Errors.DependencyError (startWorkflowHandler httpPost workflowID now s).1
  ∨ Errors.BookingRejectedError
      (startWorkflowHandler httpPost workflowID now s).1 →
  kv (redis (startWorkflowHandler httpPost workflowID now s).2)
  = kv (redis s).
Proof.
  intros Hfail.
  destruct (startWorkflowHandler_cases httpPost workflowID now s)
    as [Hk|(w & _ & _ & [found Hout] & _)]; [done|].
  rewrite Hout in Hfail.
  destruct Hfail as [[H|H]|[(err & H)|(code & details & _ & H)]];
    discriminate H.
Qed.

(** The bounds check of [ExecuteStep] on a running workflow. *)

Lemma executeStepHandler_index_too_large workflowID i s workflow r1 :
  getWorkflow workflowID (redis s) = (Ok (Some workflow), r1) →
  Status workflow = StatusRunning →
  (i >= len (Steps workflow))%Z →
  executeStepHandler httpPost workflowID (Some i) s
  = (Respond http.StatusBadRequest (H_error "Invalid step index"),
     mkWorld r1 (net s)).
Proof.
  intros Hg Hst Hi. unfold executeStepHandler. rewrite Hg.
  destruct (decide (Status workflow ≠ StatusRunning)); [done|].
  by destruct (decide (i >= len (Steps workflow))%Z).
Qed.

Lemma executeStepHandler_not_running workflowID body s workflow r1 :
  getWorkflow workflowID (redis s) = (Ok (Some workflow), r1) →
  Status workflow ≠ StatusRunning →
  executeStepHandler httpPost workflowID body s
  = (Respond http.StatusBadRequest (H_error "Workflow is not running"),
     mkWorld r1 (net s)).
Proof.
  intros Hg Hst. unfold executeStepHandler. rewrite Hg.
  by destruct (decide (Status workflow ≠ StatusRunning)).
Qed.

(** C3.  What the code does below the range: for a running workflow and
    a negative step index the comparison with [len(steps)] lets the
    request through, and the access [steps[req.StepIndex]] is out of
    bounds; the handler panics and writes no IndexError. *)
Theorem executeStepHandler_negative_index workflowID i s workflow r1 :
  getWorkflow workflowID (redis s) = (Ok (Some workflow), r1) →
  Status workflow = StatusRunning →
  (i < 0)%Z →
  index (Steps workflow) i = None
  ∧ executeStepHandler httpPost workflowID (Some i) s
    = (Panic, mkWorld r1 (net s))
  ∧ ¬ Errors.IndexError
        (executeStepHandler httpPost workflowID (Some i) s).1.
Proof.
  intros Hg Hst Hi.
  assert (index (Steps workflow) i = None) as Hidx.
  { unfold index. by destruct (decide (i < 0)%Z). }
  assert (executeStepHandler httpPost workflowID (Some i) s
          = (Panic, mkWorld r1 (net s))) as Hout.
  { unfold executeStepHandler. rewrite Hg.
    destruct (decide (Status workflow ≠ StatusRunning)); [done|].
    destruct (decide (i >= len (Steps workflow))%Z) as [Hge|_].
    - unfold len in Hge. lia.
    - by rewrite Hidx. }
  split; [done|]. split; [done|]. rewrite Hout. discriminate.
Qed.

(** C4, as the code has it.  For an existing workflow and a step index
    at or past the end of its steps, [ExecuteStep] fails with IndexError
    when the workflow is running; in every other status it fails with
    the InvalidStateError of a workflow that is not running, and the
    index is not looked at. *)
Theorem executeStepHandler_index_past_end workflowID i s workflow r1 :
  getWorkflow workflowID (redis s) = (Ok (Some workflow), r1) →
  (i >= len (Steps workflow))%Z →
  (Status workflow = StatusRunning →
   Errors.IndexError (executeStepHandler httpPost workflowID (Some i) s).1)
  ∧ (Status workflow ≠ StatusRunning →
     (executeStepHandler httpPost workflowID (Some i) s).1
     = Respond http.StatusBadRequest (H_error "Workflow is not running")
     ∧ Errors.InvalidStateError
         (executeStepHandler httpPost workflowID (Some i) s).1).
Proof.
  intros Hg Hi. split; intros Hst.
  - by rewrite (executeStepHandler_index_too_large _ _ _ _ _ Hg Hst Hi).
  - rewrite (executeStepHandler_not_running _ _ _ _ _ Hg Hst).
    split; [done|]. by right.
Qed.

End CoordinatorRequests.

(** ** The requests above on concrete stores *)

Section CoordinatorExamples.
Import Redis WorkflowService Fixture.

Lemma startWorkflowHandler_failure_leaves_store_witness :
  Errors.DependencyError
    (startWorkflowHandler unreachable "wf-1" noon
       (mkWorld created_store ())).1
  ∧ kv (redis (startWorkflowHandler unreachable "wf-1" noon
                 (mkWorld created_store ())).2)
    = kv created_store.
Proof.
  assert (Errors.DependencyError
            (startWorkflowHandler unreachable "wf-1" noon
               (mkWorld created_store ())).1) as Hfail.
  { exists "connection refused". reflexivity. }
  split; [exact Hfail|].
  apply (startWorkflowHandler_failure_leaves_store unreachable "wf-1" noon
           (mkWorld created_store ())).
  right; left; exact Hfail.
Defined.

Lemma executeStepHandler_negative_index_witness :
  executeStepHandler granting "wf-1" (Some (-1)%Z)
    (mkWorld running_store ())
  = (Panic, mkWorld running_store ()).
Proof.
  refine (proj1 (proj2
    (executeStepHandler_negative_index granting "wf-1" (-1)
       (mkWorld running_store ())
       (pcr_run StatusRunning "2025-01-15T10:01:00Z") running_store
       _ _ _))); [reflexivity|reflexivity|lia].
Defined.

Lemma executeStepHandler_index_past_end_witness :
  Errors.IndexError
    (executeStepHandler granting "wf-1" (Some 2%Z)
       (mkWorld running_store ())).1.
Proof.
  refine (proj1
    (executeStepHandler_index_past_end granting "wf-1" 2
       (mkWorld running_store ())
       (pcr_run StatusRunning "2025-01-15T10:01:00Z") running_store
       _ _) _); [reflexivity|unfold len; simpl; lia|reflexivity].
Defined.

(** C4 fails as stated: [wf-2] exists with status created and no steps,
    so step index 0 is past the end, and the answer is the
    InvalidStateError, not the IndexError. *)
Lemma executeStepHandler_created_counterexample :
  collection created_store !! "wf-2" = Some empty_run
  ∧ Status empty_run = StatusCreated
  ∧ (0 >= len (Steps empty_run))%Z
  ∧ (executeStepHandler granting "wf-2" (Some 0%Z)
       (mkWorld created_store ())).1
    = Respond http.StatusBadRequest (H_error "Workflow is not running")
  ∧ ¬ Errors.IndexError
        (executeStepHandler granting "wf-2" (Some 0%Z)
           (mkWorld created_store ())).1.
Proof.
  split; [reflexivity|]. split; [reflexivity|].
  split; [unfold len; simpl; lia|]. split; [reflexivity|].
  intros H. discriminate H.
Qed.

End CoordinatorExamples.

(** ** Sequences of requests *)

Section CoordinatorRuns.
Import Redis WorkflowService.
Context {N : Type} (httpPost : string → JsonObject → N → PostResult * N).
Implicit Types (s : World (N := N)) (qs : list Request) (q : Request).

(** A request leaves the collection alone or rebinds one identifier. *)
Lemma serve_cases q s :
  collection (redis (serve httpPost q s).2) = collection (redis s)
  ∨ (∃ body uuid now req,
       q = POST_workflows body uuid now
       ∧ collection (redis (serve httpPost q s).2)
         = <[uuid := mkWorkflow uuid (req_Name req) (req_DeviceID req)
                       (req_SampleBarcodes req) (req_Steps req)
                       StatusCreated (formatRFC3339 now) "" ""]>
             (collection (redis s)))
  ∨ (∃ workflowID now workflow,
       collection (redis s) !! workflowID = Some workflow
       ∧ Status workflow = StatusCreated
       ∧ collection (redis (serve httpPost q s).2)
         = <[workflowID :=
               with_StartedAt (with_Status workflow StatusRunning)
                 (formatRFC3339 now)]> (collection (redis s)))
  ∨ (∃ workflowID now workflow,
       collection (redis s) !! workflowID = Some workflow
       ∧ Status workflow = StatusRunning
       ∧ collection (redis (serve httpPost q s).2)
         = <[workflowID :=
               with_CompletedAt (with_Status workflow StatusCompleted)
                 (formatRFC3339 now)]> (collection (redis s))).
Proof.
  destruct q as [body uuid now|workflowID now|workflowID now|workflowID body];
    simpl.
  - destruct (createWorkflowHandler_cases body uuid now s)
      as [Hk|(req & _ & Hc)].
    + left. by apply collection_kv.
    + right; left. by exists body, uuid, now, req.
  - destruct (startWorkflowHandler_cases httpPost workflowID now s)
      as [Hk|(w & Hw & Hst & _ & Hc)].
    + left. by apply collection_kv.
    + right; right; left. by exists workflowID, now, w.
  - destruct (completeWorkflowHandler_cases httpPost workflowID now s)
      as [Hk|(w & Hw & Hst & _ & Hc)].
    + left. by apply collection_kv.
    + right; right; right. by exists workflowID, now, w.
  - left. apply collection_kv. apply executeStepHandler_kv.
Qed.

Lemma created_consistent uuid name deviceID barcodes steps createdAt :
  timestamps_consistent
    (mkWorkflow uuid name deviceID barcodes steps StatusCreated
       createdAt "" "").
Proof.
  unfold timestamps_consistent; simpl.
  split; (split; [done|]).
  - intros [H|H]; discriminate H.
  - intros H; discriminate H.
Qed.

Lemma started_consistent workflow now :
  timestamps_consistent workflow →
  Status workflow = StatusCreated →
  timestamps_consistent
    (with_StartedAt (with_Status workflow StatusRunning)
       (formatRFC3339 now)).
Proof.
  unfold timestamps_consistent; simpl. intros [_ Hc] Hst.
  split; split.
  - by left.
  - intros _. apply formatRFC3339_nonempty.
  - intros Hne. apply Hc in Hne. rewrite Hst in Hne. discriminate Hne.
  - intros H. discriminate H.
Qed.

Lemma completed_consistent workflow now :
  timestamps_consistent workflow →
  Status workflow = StatusRunning →
  timestamps_consistent
    (with_CompletedAt (with_Status workflow StatusCompleted)
       (formatRFC3339 now)).
Proof.
  unfold timestamps_consistent; simpl. intros [Hs _] Hst.
  split; split.
  - by right.
  - intros _. apply Hs. by left.
  - done.
  - intros _. apply formatRFC3339_nonempty.
Qed.

Lemma serve_timestamps q s :
  (∀ id w, collection (redis s) !! id = Some w → timestamps_consistent w) →
  ∀ id w,
    collection (redis (serve httpPost q s).2) !! id = Some w →
    timestamps_consistent w.
Proof.
  intros Hinv id w.
  destruct (serve_cases q s)
    as [->|[(body & uuid & now & req & _ & ->)
          |[(wid & now & w0 & Hw0 & Hst & ->)
           |(wid & now & w0 & Hw0 & Hst & ->)]]].
  - apply Hinv.
  - rewrite lookup_insert. case_decide; [|apply Hinv].
    intros [= <-]. apply created_consistent.
  - rewrite lookup_insert. case_decide; [|apply Hinv].
    intros [= <-]. apply started_consistent; eauto.
  - rewrite lookup_insert. case_decide; [|apply Hinv].
    intros [= <-]. apply completed_consistent; eauto.
Qed.

Lemma run_timestamps qs s :
  (∀ id w, collection (redis s) !! id = Some w → timestamps_consistent w) →
  ∀ id w,
    collection (redis (run httpPost qs s)) !! id = Some w →
    timestamps_consistent w.
Proof.
  revert s. induction qs as [|q qs IH]; intros s Hinv; simpl; [done|].
  apply IH. by apply serve_timestamps.
Qed.

(** C6.  Start from an empty collection and serve any sequence of
    Create, Start, Complete and ExecuteStep requests, with any answers
    from the device service and any Redis failures on the way.  In every
    record then stored, started_at is set exactly when the status is
    running or completed, and completed_at is set exactly when the
    status is completed. *)
Theorem reachable_timestamps_consistent qs s0 id workflow :
  collection (redis s0) = ∅ →
  collection (redis (run httpPost qs s0)) !! id = Some workflow →
  (StartedAt workflow ≠ ""
   ↔ Status workflow = StatusRunning ∨ Status workflow = StatusCompleted)
  ∧ (CompletedAt workflow ≠ "" ↔ Status workflow = StatusCompleted).
Proof.
  intros Hempty Hw. apply (run_timestamps qs s0) in Hw; [done|].
  intros id' w'. by rewrite Hempty, lookup_empty.
Qed.




Lemma generated_cons q qs : generated (q :: qs) = generated [q] ++ generated qs.
Proof. by destruct q. Qed.


End CoordinatorRuns.

Section CoordinatorCreate.
Import Redis WorkflowService.
Context {N : Type} (httpPost : string → JsonObject → N → PostResult * N).
Implicit Types (s : World (N := N)) (qs : list Request).



(** A 201 answer carries the record built from the request, and that
    record is then stored under the generated identifier. *)
Lemma createWorkflowHandler_created body uuid now s workflow s' :
  createWorkflowHandler body uuid now s
  = (Respond http.StatusCreated (JSON_workflow (Some workflow)), s') →
  ID workflow = uuid
  ∧ Status workflow = StatusCreated
  ∧ StartedAt workflow = ""
  ∧ CompletedAt workflow = ""
  ∧ collection (redis s') = <[uuid := workflow]> (collection (redis s)).
Proof.
  unfold createWorkflowHandler.
  destruct (bindCreateWorkflowRequest body) as [req|]; [|done].
  destruct (getAllWorkflows (redis s)) as [[ws|e] r1] eqn:Hg; [|done].
  destruct (getAllWorkflows_Ok _ _ _ Hg) as [-> Hk]. unfold saveWorkflows.
  match goal with |- context [SET ?k ?v r1] =>
    destruct (SET_cases k v r1) as [(e & He & Hs)|[He Hs]];
    destruct (SET k v r1) as [oe r2]; simpl in *; subst oe
  end; [done|].
  intros [= <- <-]. repeat (split; [done|]). simpl.
  apply (collection_stored r1 _ _ eq_refl). by rewrite Hs, Hk.
Qed.


End CoordinatorCreate.

Section RunExamples.
Import Redis WorkflowService Fixture.

Example full_run_completes :
  collection (redis (run granting full_run (mkWorld fresh_store ())))
  !! "uuid-1"
  = Some (mkWorkflow "uuid-1" "PCR Run" "liquid-handler-1" ["SAMPLE001"]
            ["pipette"; "heat"] StatusCompleted "2025-01-15T12:00:00Z"
            "2025-01-15T12:00:00Z" "2025-01-15T12:00:00Z").
Proof. reflexivity. Qed.

Lemma reachable_timestamps_consistent_witness :
  ∃ workflow,
    collection (redis (run granting full_run (mkWorld fresh_store ())))
    !! "uuid-1" = Some workflow
    ∧ Status workflow = StatusCompleted
    ∧ (StartedAt workflow ≠ ""
       ↔ Status workflow = StatusRunning ∨ Status workflow = StatusCompleted)
    ∧ (CompletedAt workflow ≠ "" ↔ Status workflow = StatusCompleted).
Proof.
  eexists. split; [reflexivity|]. split; [reflexivity|].
  apply (reachable_timestamps_consistent granting full_run
           (mkWorld fresh_store ()) "uuid-1"); reflexivity.
Defined.



End RunExamples.

(** ** The device service *)

Section DeviceFacts.
Import Redis DeviceService.

Example route_book :
  route "/devices/liquid-handler-1/book" = Some (book "liquid-handler-1").
Proof. reflexivity. Qed.

Example route_release :
  route "/devices/incubator-1/release" = Some (release "incubator-1").
Proof. reflexivity. Qed.

Example route_unknown : route "/devices/incubator-1" = None.
Proof. reflexivity. Qed.

(** No route is registered for the path [/device/<id>/reserve]: its
    first segment is [device], the routes start with [devices]. *)
Lemma route_reserve deviceID :
  route ("/device/" +:+ deviceID +:+ "/reserve") = None.
Proof.
  unfold route. simpl. by repeat case_match.
Qed.

Lemma statusKey_ne_workflowKey deviceID :
  statusKey deviceID ≠ workflowKey deviceID.
Proof.
  unfold statusKey, workflowKey. simpl. intros [= H].
  induction deviceID as [|c d IH]; simpl in H; [discriminate H|].
  injection H as H. by apply IH.
Qed.

Lemma setDeviceStatus_available r deviceID :
  faults r = [] →
  setDeviceStatus deviceID "available" None r
  = mk (delete (workflowKey deviceID)
          (<[statusKey deviceID := "available"]> (kv r))) [].
Proof.
  intros Hf. unfold setDeviceStatus.
  rewrite (SET_no_fault _ _ _ Hf). cbn [snd]. by rewrite DEL_no_fault.
Qed.

(** C2, as the code has it.  For a known device, Redis answering: a
    release request is refused with 403, the store untouched, when the
    device is reserved and the request carries a non-empty workflow
    identifier other than the holder's.  It is honoured (status
    available, reservation cleared) when the device is not reserved,
    when the request carries the holder's identifier, and when it
    carries no workflow identifier at all. *)
Theorem releaseDeviceHandler_guard deviceID body now r :
  faults r = [] →
  is_Some (DEVICES !! deviceID) →
  (∀ holder,
     reservation r deviceID = Some holder →
     requester body ≠ "" →
     requester body ≠ holder →
     releaseDeviceHandler deviceID body now r
     = (JSON http.StatusForbidden
          [("error", "Device is booked by another workflow")], r))
  ∧ (reservation r deviceID = None
     ∨ requester body = ""
     ∨ reservation r deviceID = Some (requester body) →
     ∃ r',
       releaseDeviceHandler deviceID body now r
       = (JSON http.StatusOK
            [("device_id", deviceID); ("status", "available");
             ("released_at", formatRFC3339 now)], r')
       ∧ kv r' !! statusKey deviceID = Some "available"
       ∧ reservation r' deviceID = None).
Proof.
  intros Hf [device Hdev].
  unfold releaseDeviceHandler, reservation. rewrite Hdev.
  fold (requester body). rewrite (GET_no_fault _ _ Hf). split.
  - intros holder -> Hne Hother.
    rewrite bool_decide_eq_true_2; [done|]. split; congruence.
  - intros Hok. eexists. split.
    + destruct (kv r !! workflowKey deviceID) as [holder|]; [|done].
      rewrite bool_decide_eq_false_2; [done|].
      intros [Hother Hne]. destruct Hok as [?|[?|?]]; congruence.
    + rewrite (setDeviceStatus_available _ _ Hf). simpl. split.
      * rewrite lookup_delete_ne by (symmetry; apply statusKey_ne_workflowKey).
        apply lookup_insert_eq.
      * apply lookup_delete_eq.
Qed.

End DeviceFacts.

Section DeviceExamples.
Import Redis DeviceService Fixture.

Lemma releaseDeviceHandler_guard_witness :
  releaseDeviceHandler "liquid-handler-1" (Json [("workflow_id", "wf-9")])
    noon booked_devices
  = (JSON http.StatusForbidden
       [("error", "Device is booked by another workflow")], booked_devices).
Proof.
  apply (proj1 (releaseDeviceHandler_guard "liquid-handler-1"
                  (Json [("workflow_id", "wf-9")]) noon booked_devices
                  eq_refl (mk_is_Some _ _ eq_refl)) "wf-1").
  - reflexivity.
  - discriminate.
  - discriminate.
Defined.

(** C2 fails as stated: the liquid handler is reserved by [wf-1]; a
    release request that carries no workflow identifier does not come
    from the holder, and it is honoured. *)
Lemma releaseDeviceHandler_anonymous_counterexample :
  reservation booked_devices "liquid-handler-1" = Some "wf-1"
  ∧ requester (Json []) ≠ "wf-1"
  ∧ (releaseDeviceHandler "liquid-handler-1" (Json []) noon booked_devices).1
    = JSON http.StatusOK
        [("device_id", "liquid-handler-1"); ("status", "available");
         ("released_at", "2025-01-15T12:00:00Z")]
  ∧ reservation
      (releaseDeviceHandler "liquid-handler-1" (Json []) noon
         booked_devices).2 "liquid-handler-1" = None
  ∧ kv (releaseDeviceHandler "liquid-handler-1" (Json []) noon
          booked_devices).2 !! statusKey "liquid-handler-1"
    = Some "available".
Proof.
  split; [reflexivity|]. split; [discriminate|].
  split; [reflexivity|]. split; reflexivity.
Qed.

(** Member names are matched with the case folded: a request that
    spells the member [Workflow_ID] names its workflow all the same, and
    is refused when another workflow holds the device. *)
Example member_folds_case :
  member "workflow_id" [("Workflow_ID", "wf-9")] = Some "wf-9"
  ∧ member "workflow_id" [("workflow_id", "wf-1"); ("WORKFLOW_ID", "wf-2")]
    = Some "wf-2"
  ∧ member "workflow_id"
      [("wor" +:+ String (ascii_of_nat 226)
                    (String (ascii_of_nat 132)
                       (String (ascii_of_nat 170) "flow_id")), "wf-3")]
    = Some "wf-3"
  ∧ member "workflow_id" [("workflow-id", "wf-4")] = None.
Proof. repeat split; reflexivity. Qed.

Example release_miscased_refused :
  releaseDeviceHandler "liquid-handler-1" (Json [("Workflow_ID", "wf-9")])
    noon booked_devices
  = (JSON http.StatusForbidden
       [("error", "Device is booked by another workflow")], booked_devices).
Proof. reflexivity. Qed.

End DeviceExamples.

(** ** The coordinator against the device service *)

Section Booking.
Import Redis WorkflowService.

Lemma servePOST_reserve bindingError deviceNow deviceID body devices :
  DeviceService.servePOST bindingError deviceNow
    ("/device/" +:+ deviceID +:+ "/reserve") body devices
  = (Response http.StatusNotFound (Text "404 page not found"), devices).
Proof. unfold DeviceService.servePOST. by rewrite route_reserve. Qed.

(** C1.  What the code does: [Start] on a created workflow posts to
    [/device/<id>/reserve], a path the device service has no route for.
    Whatever the device and its availability, the router answers 404,
    nothing is booked, [Start] answers with the booking rejection and
    the workflow stays as it was. *)
Theorem startWorkflowHandler_never_books bindingError deviceNow
    workflowID now r devices workflow r1 :
  getWorkflow workflowID r = (Ok (Some workflow), r1) →
  Status workflow = StatusCreated →
  startWorkflowHandler (DeviceService.servePOST bindingError deviceNow)
    workflowID now (mkWorld r devices)
  = (Respond http.StatusNotFound
       (H_error_details "Failed to book device" None), mkWorld r1 devices)
  ∧ collection r1 !! workflowID = Some workflow.
Proof.
  intros Hg Hst. split.
  - by rewrite (startWorkflowHandler_rejected _ workflowID now
                  (mkWorld r devices) workflow r1 http.StatusNotFound
                  (Text "404 page not found") devices Hg Hst
                  (servePOST_reserve _ _ _ _ _)).
  - destruct (getWorkflow_Ok _ _ _ _ Hg) as [Hw Hk].
    by rewrite (collection_kv _ _ Hk).
Qed.

End Booking.

Section BookingExamples.
Import Redis WorkflowService Fixture.

(** The device of [wf-1] is known and available: the booking request,
    sent to the booking route, is granted. *)
Example book_granted :
  DeviceService.servePOST no_text noon "/devices/liquid-handler-1/book"
    [("workflow_id", "wf-1")] idle_devices
  = (Response http.StatusOK
       (Json [("device_id", "liquid-handler-1"); ("status", "busy");
              ("workflow_id", "wf-1");
              ("booked_at", "2025-01-15T12:00:00Z")]),
     booked_devices).
Proof. reflexivity. Qed.

Lemma startWorkflowHandler_never_books_witness :
  startWorkflowHandler (DeviceService.servePOST no_text noon) "wf-1" noon
    (mkWorld created_store idle_devices)
  = (Respond http.StatusNotFound
       (H_error_details "Failed to book device" None),
     mkWorld created_store idle_devices)
  ∧ collection created_store !! "wf-1" = Some (pcr_run StatusCreated "").
Proof.
  apply (startWorkflowHandler_never_books no_text noon "wf-1" noon
           created_store idle_devices (pcr_run StatusCreated "")
           created_store); reflexivity.
Defined.

End BookingExamples.

(** ** The sample service *)

Section SampleFacts.
Import Redis SampleService.
Implicit Types (r : Redis.t (gmap string Sample)).

Lemma getAllSamples_kv r : kv (getAllSamples r).2 = kv r.
Proof.
  unfold getAllSamples. pose proof (GET_kv SAMPLES_KEY r) as Hg.
  destruct (GET SAMPLES_KEY r) as [[ws|[]] r1]; done.
Qed.

Lemma getAllSamples_no_fault r :
  faults r = [] → getAllSamples r = (Ok (collection r), r).
Proof.
  intros Hf. unfold getAllSamples, collection.
  rewrite (GET_no_fault _ _ Hf). by destruct (kv r !! SAMPLES_KEY).
Qed.

(** The loop fills the slots from [i] on with the results for the
    barcodes, in order, and leaves the slots before [i] alone. *)
Lemma validateLoop_spec samples barcodes i results :
  length results = i + length barcodes →
  validateLoop samples i barcodes results
  = take i results
    ++ ((λ barcode, mkValidationResult barcode (exists_ samples barcode))
        <$> barcodes).
Proof.
  revert i results.
  induction barcodes as [|barcode rest IH]; intros i results Hlen;
    simpl in *.
  - rewrite app_nil_r, take_ge; [done|lia].
  - rewrite IH by (rewrite length_insert; lia).
    rewrite (take_S_r _ _ (mkValidationResult barcode
                             (exists_ samples barcode)))
      by (apply list_lookup_insert_eq; lia).
    rewrite take_insert_ge by lia. by rewrite <- app_assoc.
Qed.

Lemma validateLoop_from_zero samples barcodes :
  validateLoop samples 0 barcodes
    (replicate (length barcodes) (mkValidationResult "" false))
  = (λ barcode, mkValidationResult barcode (exists_ samples barcode))
    <$> barcodes.
Proof.
  rewrite validateLoop_spec by (rewrite length_replicate; lia).
  by rewrite take_0.
Qed.

Lemma exists_true samples barcode :
  exists_ samples barcode = true ↔ is_Some (samples !! barcode).
Proof.
  unfold exists_. destruct (samples !! barcode) as [sample|].
  - split; [eauto|done].
  - split; [done|]. intros [sample H]. discriminate H.
Qed.

(** C10.  Validation never changes the content of the sample store.
    For a request that carries a list of barcodes, Redis answering, the
    response is 200 with as many results as barcodes; the result at
    each position holds the barcode at that position, and its flag is
    true exactly when the stored collection has a sample under that
    barcode. *)
Theorem validateSamplesHandler_results body r :
  kv (validateSamplesHandler body r).2 = kv r
  ∧ ∀ barcodes,
      body = Some barcodes →
      faults r = [] →
      ∃ results,
        validateSamplesHandler body r
        = (Respond http.StatusOK (JSON_results results), r)
        ∧ length results = length barcodes
        ∧ ∀ i barcode,
            barcodes !! i = Some barcode →
            ∃ result,
              results !! i = Some result
              ∧ result_Barcode result = barcode
              ∧ (result_Exists result = true
                 ↔ is_Some (collection r !! barcode)).
Proof.
  split.
  - unfold validateSamplesHandler. destruct body as [barcodes|]; [|done].
    pose proof (getAllSamples_kv r) as Hk.
    by destruct (getAllSamples r) as [[samples|e] r1].
  - intros barcodes -> Hf. unfold validateSamplesHandler.
    rewrite (getAllSamples_no_fault _ Hf), validateLoop_from_zero.
    eexists. split; [reflexivity|]. split; [by rewrite length_fmap|].
    intros i barcode Hi. eexists. rewrite list_lookup_fmap, Hi.
    split; [reflexivity|]. split; [done|]. apply exists_true.
Qed.

End SampleFacts.

Section SampleExamples.
Import Redis SampleService Fixture.

Example validate_three :
  validateSamplesHandler (Some ["SAMPLE001"; "SAMPLE900"; "SAMPLE003"])
    sample_store
  = (Respond http.StatusOK
       (JSON_results [ mkValidationResult "SAMPLE001" true;
                       mkValidationResult "SAMPLE900" false;
                       mkValidationResult "SAMPLE003" true ]),
     sample_store).
Proof. reflexivity. Qed.

Lemma validateSamplesHandler_results_witness :
  ∃ results,
    validateSamplesHandler (Some ["SAMPLE001"; "SAMPLE900"]) sample_store
    = (Respond http.StatusOK (JSON_results results), sample_store)
    ∧ length results = 2.
Proof.
  destruct (proj2 (validateSamplesHandler_results
                     (Some ["SAMPLE001"; "SAMPLE900"]) sample_store)
              ["SAMPLE001"; "SAMPLE900"] eq_refl eq_refl)
    as (results & Hout & Hlen & _).
  exists results. split; [exact Hout|exact Hlen].
Defined.

End SampleExamples.

(** * Further properties *)

(** ** The sample registry *)

Section SampleRegistry.
Import Redis SampleService.
Implicit Types (r : Redis.t (gmap string Sample)).

Lemma getAllSamples_Ok r samples r' :
  getAllSamples r = (Ok samples, r') →
  samples = collection r ∧ kv r' = kv r.
Proof.
  intros H. pose proof (getAllSamples_kv r) as Hk. rewrite H in Hk.
  split; [|done]. unfold getAllSamples in H. unfold collection.
  destruct (GET SAMPLES_KEY r) as [[ws|[]] r1] eqn:Hg; simplify_eq.
  - by rewrite (GET_Ok _ _ _ _ Hg).
  - by rewrite (GET_Nil _ _ _ Hg).
Qed.

Lemma sample_collection_kv r r' : kv r' = kv r → collection r' = collection r.
Proof. unfold collection. by intros ->. Qed.

Lemma sample_collection_stored r samples r' :
  kv r' = <[SAMPLES_KEY := samples]> (kv r) → collection r' = samples.
Proof. intros Hk. unfold collection. by rewrite Hk, lookup_insert_eq. Qed.

Lemma getSampleHandler_kv barcode r : kv (getSampleHandler barcode r).2 = kv r.
Proof.
  unfold getSampleHandler. pose proof (getAllSamples_kv r) as Hk.
  destruct (getAllSamples r) as [[samples|e] r1]; [|done].
  by destruct (samples !! barcode).
Qed.

Lemma validateSamplesHandler_kv body r :
  kv (validateSamplesHandler body r).2 = kv r.
Proof.
  unfold validateSamplesHandler. destruct body as [barcodes|]; [|done].
  pose proof (getAllSamples_kv r) as Hk.
  by destruct (getAllSamples r) as [[samples|e] r1].
Qed.

(** [createSampleHandler] leaves the store alone, or it has found the
    barcode free and bound it to the new sample. *)
Lemma createSampleHandler_cases body now r :
  kv (createSampleHandler body now r).2 = kv r
  ∨ ∃ req,
      bindCreateSampleRequest body = Some req
      ∧ collection r !! req_Barcode req = None
      ∧ (createSampleHandler body now r).1
        = JSON_sample http.StatusCreated
            (mkSample (req_Barcode req) (req_Name req) (req_Type req)
               (req_Location req) (formatRFC3339 now) "")
      ∧ collection (createSampleHandler body now r).2
        = <[req_Barcode req :=
              mkSample (req_Barcode req) (req_Name req) (req_Type req)
                (req_Location req) (formatRFC3339 now) ""]> (collection r).
Proof.
  unfold createSampleHandler.
  destruct (bindCreateSampleRequest body) as [req|]; [|by left].
  destruct (getAllSamples r) as [[samples|e] r1] eqn:Hg.
  2:{ left. pose proof (getAllSamples_kv r) as Hk. by rewrite Hg in Hk. }
  destruct (getAllSamples_Ok _ _ _ Hg) as [-> Hk].
  destruct (collection r !! req_Barcode req) eqn:Hfree; [by left|].
  unfold saveSamples.
  match goal with |- context [SET ?k ?v r1] =>
    destruct (SET_cases k v r1) as [(e & He & Hs)|[He Hs]];
    destruct (SET k v r1) as [oe r2]; simpl in *; subst oe
  end.
  - left. simpl. congruence.
  - right. exists req. repeat (split; [done|]). simpl.
    apply (sample_collection_stored r1). by rewrite Hs.
Qed.

(** [updateSampleLocationHandler] leaves the store alone, or it has
    found the sample and stored it with the new location and stamp. *)
Lemma updateSampleLocationHandler_cases barcode body now r :
  kv (updateSampleLocationHandler barcode body now r).2 = kv r
  ∨ ∃ sample location,
      body = Some location
      ∧ collection r !! barcode = Some sample
      ∧ (updateSampleLocationHandler barcode body now r).1
        = JSON_sample http.StatusOK
            (mkSample (Barcode sample) (Name sample) (Type_ sample)
               location (CreatedAt sample) (formatRFC3339 now))
      ∧ collection (updateSampleLocationHandler barcode body now r).2
        = <[barcode :=
              mkSample (Barcode sample) (Name sample) (Type_ sample)
                location (CreatedAt sample) (formatRFC3339 now)]>
            (collection r).
Proof.
  unfold updateSampleLocationHandler.
  destruct (getAllSamples r) as [[samples|e] r1] eqn:Hg.
  2:{ left. pose proof (getAllSamples_kv r) as Hk. by rewrite Hg in Hk. }
  destruct (getAllSamples_Ok _ _ _ Hg) as [-> Hk].
  destruct (collection r !! barcode) as [sample|] eqn:Hs; [|by left].
  destruct body as [location|]; [|by left].
  unfold saveSamples.
  match goal with |- context [SET ?k ?v r1] =>
    destruct (SET_cases k v r1) as [(e & He & Hset)|[He Hset]];
    destruct (SET k v r1) as [oe r2]; simpl in *; subst oe
  end.
  - left. simpl. congruence.
  - right. exists sample, location. repeat (split; [done|]). simpl.
    apply (sample_collection_stored r1). by rewrite Hset.
Qed.

End SampleRegistry.

Section SampleRequests.
Import Redis SampleService.
Implicit Types (r : Redis.t (gmap string Sample)).

(** X1.  [createSampleHandler] never replaces a sample: whatever the
    request and its outcome, a sample that was stored under a barcode
    is still stored there unchanged.  A request that binds and names a
    barcode already in use is answered 409 (Redis answering), and the
    store is left as it was. *)
Theorem createSampleHandler_keeps_existing body now r barcode sample :
  collection r !! barcode = Some sample →
  collection (createSampleHandler body now r).2 !! barcode = Some sample
  ∧ ∀ req,
      bindCreateSampleRequest body = Some req →
      req_Barcode req = barcode →
      faults r = [] →
      createSampleHandler body now r
      = (JSON_error http.StatusConflict "Sample already exists", r).
Proof.
  intros Hs. split.
  - destruct (createSampleHandler_cases body now r)
      as [Hk|(req & _ & Hfree & _ & ->)].
    + by rewrite (sample_collection_kv _ _ Hk).
    + rewrite lookup_insert_ne; [done|].
      intros Heq. rewrite Heq in Hfree. congruence.
  - intros req Hb <- Hf. unfold createSampleHandler.
    rewrite Hb, (getAllSamples_no_fault _ Hf). by rewrite Hs.
Qed.

(** X2.  A request that binds and names a barcode not yet in use is
    answered 201 (Redis answering) with a sample built from the request:
    its fields are the request's, created_at is the formatted clock and
    updated_at is absent.  The collection afterwards is the old one with
    that sample added under its barcode. *)
Theorem createSampleHandler_adds body now r req :
  bindCreateSampleRequest body = Some req →
  collection r !! req_Barcode req = None →
  faults r = [] →
  ∃ r',
    createSampleHandler body now r
    = (JSON_sample http.StatusCreated
         (mkSample (req_Barcode req) (req_Name req) (req_Type req)
            (req_Location req) (formatRFC3339 now) ""), r')
    ∧ collection r'
      = <[req_Barcode req :=
            mkSample (req_Barcode req) (req_Name req) (req_Type req)
              (req_Location req) (formatRFC3339 now) ""]> (collection r)
    ∧ faults r' = [].
Proof.
  intros Hb Hfree Hf. unfold createSampleHandler.
  rewrite Hb, (getAllSamples_no_fault _ Hf), Hfree. unfold saveSamples.
  rewrite (SET_no_fault _ _ _ Hf). eexists. split; [reflexivity|].
  split; [|done]. by apply (sample_collection_stored r).
Qed.

(** A sample is only ever written in a 201 answer, and it is then
    stored under its own barcode. *)
Lemma createSampleHandler_created body now r code sample :
  (createSampleHandler body now r).1 = JSON_sample code sample →
  code = http.StatusCreated
  ∧ collection (createSampleHandler body now r).2 !! Barcode sample
    = Some sample.
Proof.
  unfold createSampleHandler.
  destruct (bindCreateSampleRequest body) as [req|]; [|done].
  destruct (getAllSamples r) as [[samples|e] r1] eqn:Hg; [|done].
  destruct (samples !! req_Barcode req); [done|]. unfold saveSamples.
  match goal with |- context [SET ?k ?v r1] =>
    destruct (SET_cases k v r1) as [(e & He & Hs)|[He Hs]];
    destruct (SET k v r1) as [oe r2]; simpl in *; subst oe
  end; [done|].
  intros [= <- <-]. split; [done|]. simpl.
  rewrite (sample_collection_stored r1 _ r2 Hs). apply lookup_insert_eq.
Qed.

(** X3.  Create then Get: when [createSampleHandler] answers with a
    sample, [getSampleHandler] on that sample's barcode afterwards
    (Redis answering) returns 200 with the same sample. *)
Theorem createSampleHandler_then_get body now r code sample :
  (createSampleHandler body now r).1 = JSON_sample code sample →
  faults (createSampleHandler body now r).2 = [] →
  getSampleHandler (Barcode sample) (createSampleHandler body now r).2
  = (JSON_sample http.StatusOK sample, (createSampleHandler body now r).2).
Proof.
  intros Hout Hf.
  destruct (createSampleHandler_created _ _ _ _ _ Hout) as [_ Hs].
  unfold getSampleHandler. rewrite (getAllSamples_no_fault _ Hf).
  by rewrite Hs.
Qed.

(** X4.  [updateSampleLocationHandler] adds no sample and removes none.
    Every sample keeps its barcode, name, type and created_at, and a
    sample under another barcode than the request's is left exactly as
    it was.  For a stored sample and a request that binds, Redis
    answering, the answer is 200 and the sample is stored with the
    requested location and the formatted clock as updated_at. *)
Theorem updateSampleLocationHandler_frame barcode body now r :
  (∀ other,
     match collection r !! other,
           collection (updateSampleLocationHandler barcode body now r).2
           !! other with
     | Some before, Some after =>
         Barcode after = Barcode before
         ∧ Name after = Name before
         ∧ Type_ after = Type_ before
         ∧ CreatedAt after = CreatedAt before
         ∧ (other ≠ barcode → after = before)
     | None, None => True
     | _, _ => False
     end)
  ∧ ∀ sample location,
      collection r !! barcode = Some sample →
      body = Some location →
      faults r = [] →
      ∃ r',
        updateSampleLocationHandler barcode body now r
        = (JSON_sample http.StatusOK
             (mkSample (Barcode sample) (Name sample) (Type_ sample)
                location (CreatedAt sample) (formatRFC3339 now)), r')
        ∧ collection r' !! barcode
          = Some (mkSample (Barcode sample) (Name sample) (Type_ sample)
                    location (CreatedAt sample) (formatRFC3339 now)).
Proof.
  split.
  - intros other.
    destruct (updateSampleLocationHandler_cases barcode body now r)
      as [Hk|(sample & location & _ & Hs & _ & ->)].
    + rewrite (sample_collection_kv _ _ Hk).
      by destruct (collection r !! other).
    + rewrite lookup_insert. case_decide as Heq.
      * subst other. rewrite Hs. by repeat split.
      * by destruct (collection r !! other).
  - intros sample location Hs -> Hf. unfold updateSampleLocationHandler.
    rewrite (getAllSamples_no_fault _ Hf), Hs. unfold saveSamples.
    rewrite (SET_no_fault _ _ _ Hf). eexists. split; [reflexivity|].
    erewrite (sample_collection_stored r); [|reflexivity].
    apply lookup_insert_eq.
Qed.

(** X5.  [getSampleHandler] and [validateSamplesHandler] agree (Redis
    answering): [Get] finds a sample under a barcode exactly when
    validating that barcode reports that it exists; and an unknown
    barcode is answered 404. *)
Theorem getSampleHandler_agrees_with_validation barcode r :
  faults r = [] →
  ((∃ sample,
      getSampleHandler barcode r = (JSON_sample http.StatusOK sample, r))
   ↔ validateSamplesHandler (Some [barcode]) r
     = (Respond http.StatusOK
          (JSON_results [mkValidationResult barcode true]), r))
  ∧ (collection r !! barcode = None →
     getSampleHandler barcode r
     = (JSON_error http.StatusNotFound "Sample not found", r)).
Proof.
  intros Hf. unfold getSampleHandler, validateSamplesHandler.
  rewrite (getAllSamples_no_fault _ Hf). simpl. unfold exists_.
  destruct (collection r !! barcode) as [sample|]; split.
  - split; [done|eauto].
  - done.
  - split; [by intros [? ?]|done].
  - done.
Qed.

End SampleRequests.

Section SampleRuns.
Import Redis SampleService.
Implicit Types (r : Redis.t (gmap string Sample)) (qs : list Request).

(** A request leaves the collection alone, adds a sample under a free
    barcode that is its own, or moves one sample. *)
Lemma sample_serve_cases q r :
  collection (serve q r) = collection r
  ∨ (∃ sample,
       collection r !! Barcode sample = None
       ∧ collection (serve q r) = <[Barcode sample := sample]> (collection r))
  ∨ (∃ barcode sample location stamp,
       collection r !! barcode = Some sample
       ∧ collection (serve q r)
         = <[barcode := mkSample (Barcode sample) (Name sample) (Type_ sample)
                          location (CreatedAt sample) stamp]> (collection r)).
Proof.
  destruct q as [barcode|body now|barcode body now|body]; simpl.
  - left. apply sample_collection_kv, getSampleHandler_kv.
  - destruct (createSampleHandler_cases body now r)
      as [Hk|(req & _ & Hfree & _ & Hc)].
    + left. by apply sample_collection_kv.
    + right; left. eexists (mkSample _ _ _ _ _ _). by split.
  - destruct (updateSampleLocationHandler_cases barcode body now r)
      as [Hk|(sample & location & _ & Hs & _ & Hc)].
    + left. by apply sample_collection_kv.
    + right; right. by exists barcode, sample, location, (formatRFC3339 now).
  - left. apply sample_collection_kv, validateSamplesHandler_kv.
Qed.

Lemma sample_serve_keeps q r barcode sample :
  collection r !! barcode = Some sample →
  ∃ current,
    collection (serve q r) !! barcode = Some current
    ∧ Barcode current = Barcode sample
    ∧ Name current = Name sample
    ∧ Type_ current = Type_ sample
    ∧ CreatedAt current = CreatedAt sample.
Proof.
  intros Hs.
  destruct (sample_serve_cases q r)
    as [->|[(new & Hfree & ->)|(b & old & loc & stamp & Hold & ->)]].
  - by exists sample.
  - exists sample. rewrite lookup_insert_ne; [done|].
    intros Heq. rewrite Heq in Hfree. congruence.
  - rewrite lookup_insert. case_decide as Heq.
    + subst b. assert (old = sample) as -> by congruence.
      eexists. by split.
    + by exists sample.
Qed.

(** X6.  Whatever requests the sample service serves, a sample once
    stored is never removed, and its barcode, name, type and created_at
    never change. *)
Theorem sample_run_keeps qs r barcode sample :
  collection r !! barcode = Some sample →
  ∃ current,
    collection (run qs r) !! barcode = Some current
    ∧ Barcode current = Barcode sample
    ∧ Name current = Name sample
    ∧ Type_ current = Type_ sample
    ∧ CreatedAt current = CreatedAt sample.
Proof.
  revert r sample. unfold run.
  induction qs as [|q qs IH]; intros r sample Hs; simpl.
  - by exists sample.
  - destruct (sample_serve_keeps q r barcode sample Hs)
      as (mid & Hmid & Hb & Hn & Ht & Hc).
    destruct (IH _ _ Hmid) as (current & Hcur & Hb' & Hn' & Ht' & Hc').
    exists current. split; [done|]. repeat split; congruence.
Qed.

(** X7.  If every sample is stored under its own barcode, this is
    still so after any sequence of requests: the key of the collection
    and the barcode field of the record never part. *)
Theorem sample_run_keyed qs r :
  (∀ barcode sample,
     collection r !! barcode = Some sample → Barcode sample = barcode) →
  ∀ barcode sample,
    collection (run qs r) !! barcode = Some sample →
    Barcode sample = barcode.
Proof.
  revert r. unfold run.
  induction qs as [|q qs IH]; intros r Hinv; simpl; [done|].
  apply IH. intros barcode sample.
  destruct (sample_serve_cases q r)
    as [->|[(new & Hfree & ->)|(b & old & loc & stamp & Hold & ->)]].
  - apply Hinv.
  - rewrite lookup_insert. case_decide; [|apply Hinv]. by intros [= <-].
  - rewrite lookup_insert. case_decide; [|apply Hinv].
    intros [= <-]. simpl. subst. by apply Hinv.
Qed.

(** X8.  Start-up seeds an empty collection only: when [seed] goes
    through on a store whose collection is not empty, the content of
    the store is left as it was; on an empty collection the store then
    holds the collection [initializeSamples] writes. *)
Theorem seed_keeps_data r r' :
  seed r = Some r' →
  (collection r ≠ ∅ → kv r' = kv r)
  ∧ (collection r = ∅ →
     collection r' = collection (initializeSamples (Redis.mk ∅ [])).2).
Proof.
  unfold seed.
  destruct (getAllSamples r) as [[existing|e] r1] eqn:Hg; [|done].
  destruct (getAllSamples_Ok _ _ _ Hg) as [-> Hk].
  destruct (decide (size (collection r) = 0)) as [Hz|Hnz].
  - apply map_size_empty_iff in Hz.
    unfold initializeSamples, saveSamples.
    match goal with |- context [SET ?k ?v r1] =>
      destruct (SET_cases k v r1) as [(e & He & Hs)|[He Hs]];
      destruct (SET k v r1) as [oe r2]; simpl in *; subst oe
    end; [done|].
    intros [= <-]. split; [done|]. intros _.
    by rewrite (sample_collection_stored r1 _ r2 Hs).
  - intros [= <-]. split; [done|].
    intros Hz. by rewrite Hz, map_size_empty in Hnz.
Qed.

End SampleRuns.

(** ** The device registry *)

Section DeviceRegistry.
Import Redis DeviceService.
Implicit Types (r : Redis.t string) (deviceID : string).

Lemma DEVICES_known deviceID :
  is_Some (DEVICES !! deviceID) →
  deviceID = "liquid-handler-1" ∨ deviceID = "incubator-1"
  ∨ deviceID = "plate-reader-1".
Proof.
  unfold DEVICES. intros [device H].
  destruct (decide (deviceID = "liquid-handler-1")) as [|H1]; [by left|].
  destruct (decide (deviceID = "incubator-1")) as [|H2]; [by right; left|].
  destruct (decide (deviceID = "plate-reader-1")) as [|H3];
    [by right; right|].
  rewrite lookup_insert_ne, lookup_insert_ne in H by done.
  by rewrite lookup_singleton_ne in H.
Qed.

Lemma DEVICES_available deviceID device :
  DEVICES !! deviceID = Some device → Status device = "available".
Proof.
  intros H.
  destruct (DEVICES_known deviceID) as [-> | [-> | ->]]; [eauto| | |];
    by injection H as <-.
Qed.

(** The keys of two known devices meet only where they should. *)
Lemma known_keys a b :
  is_Some (DEVICES !! a) → is_Some (DEVICES !! b) →
  statusKey a ≠ workflowKey b
  ∧ (statusKey a = statusKey b → a = b)
  ∧ (workflowKey a = workflowKey b → a = b).
Proof.
  intros Ha Hb.
  destruct (DEVICES_known a Ha) as [-> | [-> | ->]];
    destruct (DEVICES_known b Hb) as [-> | [-> | ->]];
    (split; [discriminate|]); split; intros H; done || discriminate H.
Qed.

Lemma getDeviceStatus_kv deviceID r : kv (getDeviceStatus deviceID r).2 = kv r.
Proof.
  unfold getDeviceStatus. pose proof (GET_kv (statusKey deviceID) r) as Hk.
  destruct (GET (statusKey deviceID) r) as [[cached|e] r1]; [done|].
  by destruct (DEVICES !! deviceID).
Qed.

(** The status of a known device: the cached one, or available. *)
Lemma getDeviceStatus_known deviceID r :
  faults r = [] →
  is_Some (DEVICES !! deviceID) →
  getDeviceStatus deviceID r
  = (match kv r !! statusKey deviceID with
     | Some cached => cached
     | None => "available"
     end, r).
Proof.
  intros Hf [device Hd]. unfold getDeviceStatus.
  rewrite (GET_no_fault _ _ Hf).
  destruct (kv r !! statusKey deviceID); [done|].
  by rewrite Hd, (DEVICES_available _ _ Hd).
Qed.

Lemma setDeviceStatus_busy r deviceID workflowID :
  faults r = [] →
  workflowID ≠ "" →
  setDeviceStatus deviceID "busy" (Some workflowID) r
  = mk (<[workflowKey deviceID := workflowID]>
          (<[statusKey deviceID := "busy"]> (kv r))) [].
Proof.
  intros Hf Hw. unfold setDeviceStatus.
  rewrite (SET_no_fault _ _ _ Hf). cbn [snd].
  destruct (decide (workflowID ≠ "")); [|done]. by rewrite SET_no_fault.
Qed.

Lemma SET_other key k v r :
  key ≠ k → kv (SET k v r).2 !! key = kv r !! key.
Proof.
  intros Hne. destruct (SET_cases k v r) as [(e & _ & ->)|[_ ->]]; [done|].
  by rewrite lookup_insert_ne.
Qed.

Lemma DEL_other key k r :
  key ≠ k → kv (DEL k r).2 !! key = kv r !! key.
Proof.
  intros Hne. destruct (DEL_cases k r) as [(e & _ & ->)|[_ ->]]; [done|].
  by rewrite lookup_delete_ne.
Qed.

(** [setDeviceStatus] touches the two keys of its device only. *)
Lemma setDeviceStatus_other deviceID status workflowID r key :
  key ≠ statusKey deviceID → key ≠ workflowKey deviceID →
  kv (setDeviceStatus deviceID status workflowID r) !! key = kv r !! key.
Proof.
  intros Hs Hw. unfold setDeviceStatus.
  destruct workflowID as [w|]; [destruct (decide (w ≠ ""))|].
  - by rewrite SET_other, SET_other.
  - by rewrite DEL_other, SET_other.
  - by rewrite DEL_other, SET_other.
Qed.

Lemma bindBookRequest_nonempty body workflowID :
  bindBookRequest body = Some workflowID → workflowID ≠ "".
Proof.
  unfold bindBookRequest. destruct body as [o|]; [|done].
  destruct (member "workflow_id" o) as [w|]; [|done].
  destruct (decide (w = "")); [done|]. by intros [= <-].
Qed.

End DeviceRegistry.

Section DeviceRequests.
Import Redis DeviceService.
Implicit Types (r : Redis.t string) (deviceID : string).

(** A booking that goes through, with the store it leaves. *)
Lemma bookDeviceHandler_granted deviceID body now r workflowID :
  faults r = [] →
  is_Some (DEVICES !! deviceID) →
  bindBookRequest body = Some workflowID →
  kv r !! statusKey deviceID = None
  ∨ kv r !! statusKey deviceID = Some "available" →
  bookDeviceHandler deviceID body now r
  = (JSON http.StatusOK
       [("device_id", deviceID); ("status", "busy");
        ("workflow_id", workflowID); ("booked_at", formatRFC3339 now)],
     mk (<[workflowKey deviceID := workflowID]>
           (<[statusKey deviceID := "busy"]> (kv r))) []).
Proof.
  intros Hf [device Hd] Hb Hav.
  pose proof (bindBookRequest_nonempty _ _ Hb) as Hw.
  unfold bookDeviceHandler.
  rewrite Hd, Hb, (getDeviceStatus_known _ _ Hf (mk_is_Some _ _ Hd)).
  assert (match kv r !! statusKey deviceID with
          | Some cached => cached
          | None => "available"
          end = "available") as -> by (destruct Hav as [->| ->]; done).
  destruct (decide ("available" ≠ "available")); [done|].
  by rewrite (setDeviceStatus_busy _ _ _ Hf Hw).
Qed.

Lemma booked_lookups deviceID (kv0 : gmap string string) workflowID :
  is_Some (DEVICES !! deviceID) →
  <[workflowKey deviceID := workflowID]>
    (<[statusKey deviceID := "busy"]> kv0) !! statusKey deviceID
  = Some "busy"
  ∧ <[workflowKey deviceID := workflowID]>
      (<[statusKey deviceID := "busy"]> kv0) !! workflowKey deviceID
    = Some workflowID.
Proof.
  intros Hknown. split; [|apply lookup_insert_eq].
  rewrite lookup_insert_ne
    by (symmetry; apply statusKey_ne_workflowKey).
  apply lookup_insert_eq.
Qed.

(** X9.  Booking a known device that is available (its status is not
    cached, or cached as available) for a request that carries a
    workflow identifier, Redis answering: the answer is 200, the device
    is then busy and reserved for that workflow, and the status and
    reservation of every other known device are as before. *)
Theorem bookDeviceHandler_books deviceID body now r workflowID :
  faults r = [] →
  is_Some (DEVICES !! deviceID) →
  bindBookRequest body = Some workflowID →
  kv r !! statusKey deviceID = None
  ∨ kv r !! statusKey deviceID = Some "available" →
  ∃ r',
    bookDeviceHandler deviceID body now r
    = (JSON http.StatusOK
         [("device_id", deviceID); ("status", "busy");
          ("workflow_id", workflowID); ("booked_at", formatRFC3339 now)],
       r')
    ∧ faults r' = []
    ∧ kv r' !! statusKey deviceID = Some "busy"
    ∧ reservation r' deviceID = Some workflowID
    ∧ ∀ other,
        is_Some (DEVICES !! other) → other ≠ deviceID →
        kv r' !! statusKey other = kv r !! statusKey other
        ∧ reservation r' other = reservation r other.
Proof.
  intros Hf Hknown Hb Hav.
  rewrite (bookDeviceHandler_granted _ _ _ _ _ Hf Hknown Hb Hav).
  eexists. split; [reflexivity|]. split; [done|]. unfold reservation.
  simpl. destruct (booked_lookups deviceID (kv r) workflowID Hknown)
    as [Hbusy Hres].
  split; [done|]. split; [done|].
  intros other Hother Hne.
  destruct (known_keys other deviceID Hother Hknown) as (H1 & H2 & H3).
  destruct (known_keys deviceID other Hknown Hother) as (H4 & _ & _).
  split.
  - rewrite lookup_insert_ne by done. rewrite lookup_insert_ne; [done|].
    intros Heq. apply Hne. symmetry in Heq. by apply H2.
  - rewrite lookup_insert_ne.
    + by rewrite lookup_insert_ne.
    + intros Heq. apply Hne. symmetry in Heq. by apply H3.
Qed.

(** A device whose cached status is not available is not booked. *)
Lemma bookDeviceHandler_unavailable deviceID body now r workflowID status :
  faults r = [] →
  is_Some (DEVICES !! deviceID) →
  bindBookRequest body = Some workflowID →
  kv r !! statusKey deviceID = Some status →
  status ≠ "available" →
  bookDeviceHandler deviceID body now r
  = (JSON http.StatusConflict [("error", "Device is not available")], r).
Proof.
  intros Hf [device Hd] Hb Hs Hne. unfold bookDeviceHandler.
  rewrite Hd, Hb, (getDeviceStatus_known _ _ Hf (mk_is_Some _ _ Hd)), Hs.
  by destruct (decide (status ≠ "available")).
Qed.

(** X10.  One holder at a time, for requests served one after the
    other with Redis answering every command: once a booking has gone
    through, a second booking request for the same device, whatever
    workflow it names, is answered 409; the store is left as it was and
    the first workflow keeps the reservation. *)
Theorem bookDeviceHandler_exclusive deviceID body now r first
    body' now' second :
  faults r = [] →
  is_Some (DEVICES !! deviceID) →
  bindBookRequest body = Some first →
  kv r !! statusKey deviceID = None
  ∨ kv r !! statusKey deviceID = Some "available" →
  bindBookRequest body' = Some second →
  bookDeviceHandler deviceID body' now'
    (bookDeviceHandler deviceID body now r).2
  = (JSON http.StatusConflict [("error", "Device is not available")],
     (bookDeviceHandler deviceID body now r).2)
  ∧ reservation (bookDeviceHandler deviceID body now r).2 deviceID
    = Some first.
Proof.
  intros Hf Hknown Hb Hav Hb'.
  rewrite (bookDeviceHandler_granted _ _ _ _ _ Hf Hknown Hb Hav).
  destruct (booked_lookups deviceID (kv r) first Hknown) as [Hbusy Hres].
  simpl. split; [|done].
  by apply (bookDeviceHandler_unavailable _ _ _ _ second "busy").
Qed.

Lemma executeOperationHandler_kv bindingError deviceID body now r :
  kv (executeOperationHandler bindingError deviceID body now r).2 = kv r.
Proof.
  unfold executeOperationHandler.
  destruct (DEVICES !! deviceID); [|done].
  destruct (bindExecuteRequest body) as [[w op]|]; [|done].
  pose proof (GET_kv (workflowKey deviceID) r) as Hk.
  destruct (GET (workflowKey deviceID) r) as [got r1].
  by destruct got as [current|e]; simpl; [case_bool_decide|].
Qed.

(** X11.  Operations are for the holder only.  For a known device and
    a request that binds, Redis answering, [executeOperationHandler]
    answers 200 and echoes the operation when the device is reserved for
    the workflow the request names, and 403 otherwise (reserved for
    another workflow, or not reserved).  Whatever the request, it never
    changes the store. *)
Theorem executeOperationHandler_holder_only bindingError deviceID body now r :
  kv (executeOperationHandler bindingError deviceID body now r).2 = kv r
  ∧ ∀ workflowID operation,
      faults r = [] →
      is_Some (DEVICES !! deviceID) →
      bindExecuteRequest body = Some (workflowID, operation) →
      (reservation r deviceID = Some workflowID →
       executeOperationHandler bindingError deviceID body now r
       = (JSON http.StatusOK
            [("device_id", deviceID); ("operation", operation);
             ("status", "completed"); ("executed_at", formatRFC3339 now)],
          r))
      ∧ (reservation r deviceID ≠ Some workflowID →
         executeOperationHandler bindingError deviceID body now r
         = (JSON http.StatusForbidden
              [("error", "Device not booked by this workflow")], r)).
Proof.
  split; [apply executeOperationHandler_kv|].
  intros workflowID operation Hf [device Hd] Hb.
  unfold executeOperationHandler, reservation.
  rewrite Hd, Hb, (GET_no_fault _ _ Hf). split.
  - intros ->. by rewrite bool_decide_eq_false_2 by (intros H; by apply H).
  - intros Hne. destruct (kv r !! workflowKey deviceID) as [current|];
      [|done].
    rewrite bool_decide_eq_true_2; [done|]. congruence.
Qed.

(** X12.  Book, then release by the holder, then book again, the
    requests served one after the other and Redis answering every
    command: the release is answered 200, the device is available
    again with no reservation, and the new booking of it, for any
    workflow, goes through. *)
Theorem book_release_book deviceID body now r holder body' now'
    body'' now'' next :
  faults r = [] →
  is_Some (DEVICES !! deviceID) →
  bindBookRequest body = Some holder →
  kv r !! statusKey deviceID = None
  ∨ kv r !! statusKey deviceID = Some "available" →
  requester body' = holder →
  bindBookRequest body'' = Some next →
  ∃ r1 r2 r3,
    (bookDeviceHandler deviceID body now r).2 = r1
    ∧ releaseDeviceHandler deviceID body' now' r1
      = (JSON http.StatusOK
           [("device_id", deviceID); ("status", "available");
            ("released_at", formatRFC3339 now')], r2)
    ∧ kv r2 !! statusKey deviceID = Some "available"
    ∧ reservation r2 deviceID = None
    ∧ bookDeviceHandler deviceID body'' now'' r2
      = (JSON http.StatusOK
           [("device_id", deviceID); ("status", "busy");
            ("workflow_id", next); ("booked_at", formatRFC3339 now'')], r3)
    ∧ reservation r3 deviceID = Some next.
Proof.
  intros Hf Hknown Hb Hav Hreq Hb''.
  rewrite (bookDeviceHandler_granted _ _ _ _ _ Hf Hknown Hb Hav).
  destruct (booked_lookups deviceID (kv r) holder Hknown) as [Hbusy Hres].
  cbn [snd].
  set (r1 := mk (<[workflowKey deviceID := holder]>
                   (<[statusKey deviceID := "busy"]> (kv r))) []) in *.
  assert (faults r1 = []) as Hf1 by done.
  assert (∃ r2,
    releaseDeviceHandler deviceID body' now' r1
    = (JSON http.StatusOK
         [("device_id", deviceID); ("status", "available");
          ("released_at", formatRFC3339 now')], r2)
    ∧ faults r2 = []
    ∧ kv r2 !! statusKey deviceID = Some "available"
    ∧ reservation r2 deviceID = None) as (r2 & Hrel & Hf2 & Hav2 & Hres2).
  { unfold releaseDeviceHandler. destruct Hknown as [device Hd].
    rewrite Hd. fold (requester body'). rewrite Hreq.
    rewrite (GET_no_fault _ _ Hf1). change (kv r1 !! workflowKey deviceID)
      with (<[workflowKey deviceID := holder]>
              (<[statusKey deviceID := "busy"]> (kv r))
            !! workflowKey deviceID).
    rewrite Hres.
    rewrite bool_decide_eq_false_2 by (intros [H _]; by apply H).
    rewrite (setDeviceStatus_available _ _ Hf1).
    eexists. split; [reflexivity|]. split; [done|]. unfold reservation.
    simpl. split.
    - rewrite lookup_delete_ne
        by (symmetry; apply statusKey_ne_workflowKey).
      apply lookup_insert_eq.
    - apply lookup_delete_eq. }
  exists r1, r2. eexists. split; [done|]. split; [exact Hrel|].
  split; [done|]. split; [done|].
  rewrite (bookDeviceHandler_granted _ _ _ _ _ Hf2 Hknown Hb''
             (or_intror Hav2)).
  split; [reflexivity|]. unfold reservation. simpl. apply lookup_insert_eq.
Qed.

End DeviceRequests.

Section DeviceRouter.
Import Redis DeviceService.
Implicit Types (r : Redis.t string) (deviceID : string).

Lemma bookDeviceHandler_refused deviceID body now r code payload :
  (bookDeviceHandler deviceID body now r).1 = Response code payload →
  code ≠ http.StatusOK →
  kv (bookDeviceHandler deviceID body now r).2 = kv r.
Proof.
  unfold bookDeviceHandler. destruct (DEVICES !! deviceID); [|done].
  destruct (bindBookRequest body) as [w|]; [|done].
  pose proof (getDeviceStatus_kv deviceID r) as Hk.
  destruct (getDeviceStatus deviceID r) as [status r1].
  destruct (decide (status ≠ "available")); [done|].
  simpl. intros [= <- _] Hne. done.
Qed.

Lemma releaseDeviceHandler_refused deviceID body now r code payload :
  (releaseDeviceHandler deviceID body now r).1 = Response code payload →
  code ≠ http.StatusOK →
  kv (releaseDeviceHandler deviceID body now r).2 = kv r.
Proof.
  unfold releaseDeviceHandler. destruct (DEVICES !! deviceID); [|done].
  pose proof (GET_kv (workflowKey deviceID) r) as Hk.
  destruct (GET (workflowKey deviceID) r) as [got r1].
  match goal with |- context [if ?b then _ else _] => destruct b end;
    [done|].
  simpl. intros [= <- _] Hne. done.
Qed.

(** X13.  A request the device service does not answer with 200 has no
    effect: whatever the path and the body of a POST request, when the
    answer carries another status code (no route, unknown device, body
    that does not bind, device not available, not the holder), the
    content of the store is as before. *)
Theorem servePOST_refused bindingError now path body r code payload :
  (servePOST bindingError now path body r).1 = Response code payload →
  code ≠ http.StatusOK →
  kv (servePOST bindingError now path body r).2 = kv r.
Proof.
  unfold servePOST. destruct (route path) as [[id|id|id]|].
  - apply bookDeviceHandler_refused.
  - apply releaseDeviceHandler_refused.
  - intros _ _. apply executeOperationHandler_kv.
  - done.
Qed.

(** X14.  Get after Book, Redis answering every command: after a
    booking of a known device has gone through (as in X9),
    [getDeviceHandler] answers 200 with the device of the table
    [DEVICES], its status replaced by busy and its workflow identifier
    by the holder's.  An unknown device is answered 404, whatever Redis
    does. *)
Theorem getDeviceHandler_after_booking deviceID body now r workflowID :
  (DEVICES !! deviceID = None →
   getDeviceHandler deviceID r
   = ((http.StatusNotFound, H_error "Device not found"), r))
  ∧ ∀ deviceInfo,
      faults r = [] →
      DEVICES !! deviceID = Some deviceInfo →
      bindBookRequest body = Some workflowID →
      kv r !! statusKey deviceID = None
      ∨ kv r !! statusKey deviceID = Some "available" →
      getDeviceHandler deviceID (bookDeviceHandler deviceID body now r).2
      = ((http.StatusOK,
          JSON_device
            (mkDevice (ID deviceInfo) (Name deviceInfo) (Type_ deviceInfo)
               "busy" (Capabilities deviceInfo) workflowID)),
         (bookDeviceHandler deviceID body now r).2).
Proof.
  split.
  - intros Hd. unfold getDeviceHandler. by rewrite Hd.
  - intros deviceInfo Hf Hd Hb Hav.
    pose proof (mk_is_Some _ _ Hd) as Hknown.
    rewrite (bookDeviceHandler_granted _ _ _ _ _ Hf Hknown Hb Hav).
    destruct (booked_lookups deviceID (kv r) workflowID Hknown)
      as [Hbusy Hres].
    cbn [snd].
    set (r1 := mk (<[workflowKey deviceID := workflowID]>
                     (<[statusKey deviceID := "busy"]> (kv r))) []).
    assert (faults r1 = []) as Hf1 by done.
    unfold getDeviceHandler. rewrite Hd.
    rewrite (getDeviceStatus_known _ _ Hf1 Hknown).
    rewrite (GET_no_fault _ _ Hf1). subst r1. simpl kv.
    by rewrite Hbusy, Hres.
Qed.

End DeviceRouter.

Section DeviceStartup.
Import Redis DeviceService.
Implicit Types (r : Redis.t string) (deviceID : string).

Lemma EXISTS_no_fault key r :
  faults r = [] →
  EXISTS key r
  = (Ok (match kv r !! key with Some _ => 1%Z | None => 0%Z end), r).
Proof. intros Hf. unfold EXISTS. by rewrite (tick_no_fault _ Hf). Qed.

(** One turn of the loop of [initializeDevices], Redis answering. *)
Lemma initializeDevice_step x r :
  faults r = [] →
  is_Some (DEVICES !! x) →
  faults (initializeDevice x r) = []
  ∧ (is_Some (kv r !! statusKey x) → initializeDevice x r = r)
  ∧ (kv r !! statusKey x = None →
     kv (initializeDevice x r) !! statusKey x = Some "available"
     ∧ reservation (initializeDevice x r) x = None)
  ∧ ∀ deviceID,
      is_Some (DEVICES !! deviceID) → x ≠ deviceID →
      kv (initializeDevice x r) !! statusKey deviceID
      = kv r !! statusKey deviceID
      ∧ reservation (initializeDevice x r) deviceID = reservation r deviceID.
Proof.
  intros Hf Hx. unfold initializeDevice, reservation.
  rewrite (EXISTS_no_fault _ _ Hf).
  destruct (kv r !! statusKey x) as [status|] eqn:Hs.
  - rewrite bool_decide_eq_false_2 by done.
    repeat split; done.
  - rewrite bool_decide_eq_true_2 by done.
    rewrite (setDeviceStatus_available _ _ Hf). simpl.
    split; [done|]. split; [by intros [? ?]|]. split.
    + intros _. split; [|apply lookup_delete_eq].
      rewrite lookup_delete_ne
        by (symmetry; apply statusKey_ne_workflowKey).
      apply lookup_insert_eq.
    + intros deviceID Hd Hne.
      destruct (known_keys deviceID x Hd Hx) as (H1 & H2 & H3).
      destruct (known_keys x deviceID Hx Hd) as (H4 & _ & _).
      split.
      * rewrite lookup_delete_ne by (intros H; by apply H1).
        rewrite lookup_insert_ne; [done|].
        intros H. apply Hne. symmetry. by apply H2.
      * rewrite lookup_delete_ne
          by (intros H; apply Hne; symmetry; by apply H3).
        by rewrite lookup_insert_ne.
Qed.

(** X16.  Start-up resets only what has no status.  Redis answering,
    and whatever order the loop of [initializeDevices] takes through
    the known devices: a known device with a cached status keeps its
    status and its reservation (a booking survives a restart); a known
    device without one, once the loop has passed it, is available and
    not reserved. *)
Theorem initializeDevices_keeps_bookings order r deviceID :
  faults r = [] →
  (∀ x, x ∈ order → is_Some (DEVICES !! x)) →
  is_Some (DEVICES !! deviceID) →
  (is_Some (kv r !! statusKey deviceID) →
   kv (initializeDevices order r) !! statusKey deviceID
   = kv r !! statusKey deviceID
   ∧ reservation (initializeDevices order r) deviceID
     = reservation r deviceID)
  ∧ (kv r !! statusKey deviceID = None →
     deviceID ∈ order →
     kv (initializeDevices order r) !! statusKey deviceID
     = Some "available"
     ∧ reservation (initializeDevices order r) deviceID = None).
Proof.
  unfold initializeDevices. revert r.
  induction order as [|x order IH]; intros r Hf Hknown Hd; simpl.
  - split; [done|]. intros _ Hin. by apply not_elem_of_nil in Hin.
  - assert (is_Some (DEVICES !! x)) as Hx by (apply Hknown; left).
    destruct (initializeDevice_step x r Hf Hx)
      as (Hf1 & Hkeep & Hreset & Hother).
    destruct (IH (initializeDevice x r) Hf1) as [IH1 IH2];
      [intros y Hy; apply Hknown; by right|done|].
    destruct (decide (x = deviceID)) as [->|Hne].
    + split.
      * intros Hsome. pose proof (Hkeep Hsome) as E. rewrite E in *.
        by apply IH1.
      * intros Hnone _. destruct (Hreset Hnone) as [Hav Hres].
        destruct IH1 as [E1 E2]; [by rewrite Hav|]. by rewrite E1, E2.
    + destruct (Hother deviceID Hd Hne) as [Hst Hres]. split.
      * intros Hsome. rewrite <- Hst, <- Hres. apply IH1.
        by rewrite Hst.
      * intros Hnone Hin. apply IH2; [by rewrite Hst|].
        apply elem_of_cons in Hin as [->|Hin]; done.
Qed.

End DeviceStartup.

(** ** The coordinator: transitions *)

Section CoordinatorTransitions.
Import Redis WorkflowService.
Context {N : Type} (httpPost : string → JsonObject → N → PostResult * N).
Implicit Types (s : World (N := N)) (r : Redis.t (gmap string Workflow)).

Lemma updateWorkflow_no_fault workflowID updates r workflow :
  faults r = [] →
  collection r !! workflowID = Some workflow →
  updateWorkflow workflowID updates r
  = (Ok (Some (applyUpdates updates workflow)),
     mk (<[WORKFLOWS_KEY :=
             <[workflowID := applyUpdates updates workflow]> (collection r)]>
           (kv r)) []).
Proof.
  intros Hf Hw. unfold updateWorkflow.
  rewrite (getAllWorkflows_no_fault _ Hf), Hw. unfold saveWorkflows.
  by rewrite (SET_no_fault _ _ _ Hf).
Qed.

Lemma collection_mk (kv0 : gmap string (gmap string Workflow)) workflows fs :
  collection (mk (<[WORKFLOWS_KEY := workflows]> kv0) fs) = workflows.
Proof. unfold collection. simpl. by rewrite lookup_insert_eq. Qed.

(** X17.  Create then Get: when [createWorkflowHandler] answers 201
    with a workflow, [getWorkflowHandler] on that workflow's identifier
    afterwards (Redis answering) returns 200 with the same record.
    [getWorkflowHandler] answers 404 for an identifier that is not
    stored, and whatever it answers it leaves the store as it was. *)
Theorem getWorkflowHandler_round_trip body uuid now s workflow s' :
  createWorkflowHandler body uuid now s
  = (Respond http.StatusCreated (JSON_workflow (Some workflow)), s') →
  (faults (redis s') = [] →
   getWorkflowHandler (ID workflow) (redis s')
   = (Respond http.StatusOK (JSON_workflow (Some workflow)), redis s'))
  ∧ (∀ other r,
       kv (getWorkflowHandler other r).2 = kv r
       ∧ (faults r = [] → collection r !! other = None →
          getWorkflowHandler other r
          = (Respond http.StatusNotFound (H_error "Workflow not found"), r))).
Proof.
  intros Hout. split.
  - intros Hf.
    destruct (createWorkflowHandler_created _ _ _ _ _ _ Hout)
      as (Hid & _ & _ & _ & Hc).
    unfold getWorkflowHandler. rewrite (getWorkflow_no_fault _ _ Hf).
    by rewrite Hc, Hid, lookup_insert_eq.
  - intros other r. split.
    + unfold getWorkflowHandler.
      pose proof (getWorkflow_kv other r) as Hk.
      by destruct (getWorkflow other r) as [[[w|]|e] r1].
    + intros Hf Hnone. unfold getWorkflowHandler.
      by rewrite (getWorkflow_no_fault _ _ Hf), Hnone.
Qed.

(** X18.  A successful Start.  For a stored workflow with status
    created, the device service answering the booking request with 200
    and Redis answering: [Start] answers 200 with the record whose
    status is running and whose started_at is the formatted clock,
    every other field as before; that record is stored in place of the
    old one and no other workflow changes. *)
Theorem startWorkflowHandler_starts workflowID now s workflow payload n :
  faults (redis s) = [] →
  collection (redis s) !! workflowID = Some workflow →
  Status workflow = StatusCreated →
  httpPost ("/device/" +:+ DeviceID workflow +:+ "/reserve")
    [("workflow_id", workflowID)] (net s)
  = (Response http.StatusOK payload, n) →
  ∃ s',
    startWorkflowHandler httpPost workflowID now s
    = (Respond http.StatusOK
         (JSON_workflow
            (Some (mkWorkflow (ID workflow) (Name workflow)
                     (DeviceID workflow) (SampleBarcodes workflow)
                     (Steps workflow) StatusRunning (CreatedAt workflow)
                     (formatRFC3339 now) (CompletedAt workflow)))), s')
    ∧ net s' = n
    ∧ collection (redis s')
      = <[workflowID :=
            mkWorkflow (ID workflow) (Name workflow) (DeviceID workflow)
              (SampleBarcodes workflow) (Steps workflow) StatusRunning
              (CreatedAt workflow) (formatRFC3339 now)
              (CompletedAt workflow)]> (collection (redis s)).
Proof.
  intros Hf Hw Hst Hp. unfold startWorkflowHandler.
  rewrite (getWorkflow_no_fault _ _ Hf), Hw.
  destruct (decide (Status workflow ≠ StatusCreated)); [done|].
  rewrite Hp. destruct (decide (http.StatusOK ≠ http.StatusOK)); [done|].
  rewrite (updateWorkflow_no_fault _ _ _ workflow Hf Hw).
  rewrite getWorkflow_no_fault by done.
  rewrite collection_mk, lookup_insert_eq, applyUpdates_start.
  eexists. split; [reflexivity|]. split; [done|]. simpl.
  by rewrite collection_mk.
Qed.

(** X19.  A successful Complete.  For a stored workflow with status
    running, the device service answering the release request with 200
    and Redis answering: [Complete] answers 200 with the record whose
    status is completed and whose completed_at is the formatted clock,
    every other field as before; that record is stored in place of the
    old one and no other workflow changes. *)
Theorem completeWorkflowHandler_completes workflowID now s workflow
    payload n :
  faults (redis s) = [] →
  collection (redis s) !! workflowID = Some workflow →
  Status workflow = StatusRunning →
  httpPost ("/devices/" +:+ DeviceID workflow +:+ "/release")
    [("workflow_id", workflowID)] (net s)
  = (Response http.StatusOK payload, n) →
  ∃ s',
    completeWorkflowHandler httpPost workflowID now s
    = (Respond http.StatusOK
         (JSON_workflow
            (Some (mkWorkflow (ID workflow) (Name workflow)
                     (DeviceID workflow) (SampleBarcodes workflow)
                     (Steps workflow) StatusCompleted (CreatedAt workflow)
                     (StartedAt workflow) (formatRFC3339 now)))), s')
    ∧ net s' = n
    ∧ collection (redis s')
      = <[workflowID :=
            mkWorkflow (ID workflow) (Name workflow) (DeviceID workflow)
              (SampleBarcodes workflow) (Steps workflow) StatusCompleted
              (CreatedAt workflow) (StartedAt workflow)
              (formatRFC3339 now)]> (collection (redis s)).
Proof.
  intros Hf Hw Hst Hp. unfold completeWorkflowHandler.
  rewrite (getWorkflow_no_fault _ _ Hf), Hw.
  destruct (decide (Status workflow ≠ StatusRunning)); [done|].
  rewrite Hp. destruct (decide (http.StatusOK ≠ http.StatusOK)); [done|].
  rewrite (updateWorkflow_no_fault _ _ _ workflow Hf Hw).
  rewrite getWorkflow_no_fault by done.
  rewrite collection_mk, lookup_insert_eq, applyUpdates_complete.
  eexists. split; [reflexivity|]. split; [done|]. simpl.
  by rewrite collection_mk.
Qed.

(** X20.  When [Complete] answers with an InvalidStateError, a
    DependencyError or a ReleaseRejectedError, the content of the store
    after the request is the content before it: a workflow whose device
    could not be released stays running. *)
Theorem completeWorkflowHandler_failure_leaves_store workflowID now s :
  Errors.InvalidStateError
    (completeWorkflowHandler httpPost workflowID now s).1
  ∨ Errors.DependencyError
      (completeWorkflowHandler httpPost workflowID now s).1
  ∨ Errors.ReleaseRejectedError
      (completeWorkflowHandler httpPost workflowID now s).1 →
  kv (redis (completeWorkflowHandler httpPost workflowID now s).2)
  = kv (redis s).
Proof.
  intros Hfail.
  destruct (completeWorkflowHandler_cases httpPost workflowID now s)
    as [Hk|(w & _ & _ & [found Hout] & _)]; [done|].
  rewrite Hout in Hfail.
  destruct Hfail as [[H|H]|[(err & H)|(code & details & _ & H)]];
    discriminate H.
Qed.

End CoordinatorTransitions.

Section CoordinatorGuards.
Import Redis WorkflowService.
Context {N : Type} (httpPost : string → JsonObject → N → PostResult * N).
Implicit Types (s : World (N := N)) (r : Redis.t (gmap string Workflow)).

(** X21.  No request leaves for the device service before the state
    check has passed.  Whatever lies behind the connection, its state
    is untouched by [Start] on a workflow that is missing or not
    created, by [Complete] on one that is missing or not running, and
    by [ExecuteStep] on one that is missing or not running or with a
    step index at or past the end of the steps. *)
Theorem no_request_before_state_check workflowID now body s :
  ((∀ workflow,
      collection (redis s) !! workflowID = Some workflow →
      Status workflow ≠ StatusCreated) →
   net (startWorkflowHandler httpPost workflowID now s).2 = net s)
  ∧ ((∀ workflow,
        collection (redis s) !! workflowID = Some workflow →
        Status workflow ≠ StatusRunning) →
     net (completeWorkflowHandler httpPost workflowID now s).2 = net s)
  ∧ ((∀ workflow,
        collection (redis s) !! workflowID = Some workflow →
        Status workflow ≠ StatusRunning
        ∨ (default 0%Z body >= len (Steps workflow))%Z) →
     net (executeStepHandler httpPost workflowID body s).2 = net s).
Proof.
  repeat split.
  - intros Hstart. unfold startWorkflowHandler.
    destruct (getWorkflow workflowID (redis s)) as [[[w|]|e] r1] eqn:Hg;
      try done.
    destruct (getWorkflow_Ok _ _ _ _ Hg) as [Hw _]. symmetry in Hw.
    destruct (decide (Status w ≠ StatusCreated)); [done|].
    exfalso. eauto.
  - intros Hcomplete. unfold completeWorkflowHandler.
    destruct (getWorkflow workflowID (redis s)) as [[[w|]|e] r1] eqn:Hg;
      try done.
    destruct (getWorkflow_Ok _ _ _ _ Hg) as [Hw _]. symmetry in Hw.
    destruct (decide (Status w ≠ StatusRunning)); [done|].
    exfalso. eauto.
  - intros Hexec. unfold executeStepHandler.
    destruct (getWorkflow workflowID (redis s)) as [[[w|]|e] r1] eqn:Hg;
      try done.
    destruct (getWorkflow_Ok _ _ _ _ Hg) as [Hw _]. symmetry in Hw.
    destruct (decide (Status w ≠ StatusRunning)); [done|].
    destruct (Hexec w Hw) as [?|Hge]; [done|].
    destruct body as [i|]; simpl in *;
      match goal with |- context [decide (?a >= ?b)%Z] =>
        destruct (decide (a >= b)%Z); [done|lia]
      end.
Qed.

(** X22.  A step in range.  For a running workflow and a step index
    within its steps, [ExecuteStep] posts the workflow identifier and
    the step at that index to [/devices/<device>/execute].  On a 200
    answer it returns the index, that step and the answer's object; on
    any other status code it fails with ExecutionRejectedError under
    that code; on a transport error, with DependencyError.  A request
    whose body does not bind is served as step index 0. *)
Theorem executeStepHandler_in_range workflowID body i s workflow r1 step :
  getWorkflow workflowID (redis s) = (Ok (Some workflow), r1) →
  Status workflow = StatusRunning →
  i = default 0%Z body →
  (0 <= i)%Z →
  Steps workflow !! Z.to_nat i = Some step →
  match httpPost ("/devices/" +:+ DeviceID workflow +:+ "/execute")
          [("workflow_id", workflowID); ("operation", step)] (net s) with
  | (Response code payload, n) =>
      if decide (code = http.StatusOK) then
        executeStepHandler httpPost workflowID body s
        = (Respond http.StatusOK
             (H_step workflowID i step (unmarshalObject payload)),
           mkWorld r1 n)
      else
        executeStepHandler httpPost workflowID body s
        = (Respond code
             (H_error_details "Failed to execute step"
                (unmarshalObject payload)), mkWorld r1 n)
        ∧ Errors.ExecutionRejectedError
            (executeStepHandler httpPost workflowID body s).1
  | (TransportError err, n) =>
      Errors.DependencyError
        (executeStepHandler httpPost workflowID body s).1
  end.
Proof.
  intros Hg Hst Hi Hpos Hstep.
  assert (executeStepHandler httpPost workflowID body s
          = executeStepHandler httpPost workflowID (Some i) s) as ->.
  { subst i. by destruct body. }
  unfold executeStepHandler. rewrite Hg.
  destruct (decide (Status workflow ≠ StatusRunning)); [done|].
  destruct (decide (i >= len (Steps workflow))%Z) as [Hge|_].
  { apply lookup_lt_Some in Hstep. unfold len in Hge. lia. }
  unfold index. destruct (decide (i < 0)%Z); [lia|]. rewrite Hstep.
  destruct (httpPost _ _ (net s)) as [[err|code payload] n1].
  - by exists err.
  - destruct (decide (code = http.StatusOK)) as [->|Hne].
    + by destruct (decide (http.StatusOK ≠ http.StatusOK)).
    + destruct (decide (code ≠ http.StatusOK)); [|done].
      split; [done|]. by exists code, (unmarshalObject payload).
Qed.

(** What [updateWorkflow] has done, by its result. *)
Lemma updateWorkflow_result workflowID updates r res r' :
  updateWorkflow workflowID updates r = (res, r') →
  match res with
  | Error _ => kv r' = kv r
  | Ok None => collection r !! workflowID = None ∧ kv r' = kv r
  | Ok (Some updated) =>
      ∃ workflow,
        collection r !! workflowID = Some workflow
        ∧ updated = applyUpdates updates workflow
        ∧ kv r' = <[WORKFLOWS_KEY :=
                      <[workflowID := updated]> (collection r)]> (kv r)
  end.
Proof.
  unfold updateWorkflow.
  destruct (getAllWorkflows r) as [[ws|e] r1] eqn:Hg.
  2:{ intros [= <- <-]. pose proof (getAllWorkflows_kv r) as Hk.
      by rewrite Hg in Hk. }
  destruct (getAllWorkflows_Ok _ _ _ Hg) as [-> Hk].
  destruct (collection r !! workflowID) as [w|] eqn:Hw;
    [|by intros [= <- <-]].
  unfold saveWorkflows.
  match goal with |- context [SET ?k ?v r1] =>
    destruct (SET_cases k v r1) as [(e & He & Hs)|[He Hs]];
    destruct (SET k v r1) as [oe r2]; simpl in *; subst oe
  end; intros [= <- <-].
  - congruence.
  - exists w. by rewrite Hs, Hk.
Qed.

(** A 200 answer of [Start] means the transition has been stored. *)
Lemma startWorkflowHandler_OK workflowID now s body :
  (startWorkflowHandler httpPost workflowID now s).1
  = Respond http.StatusOK body →
  ∃ workflow,
    collection (redis s) !! workflowID = Some workflow
    ∧ Status workflow = StatusCreated
    ∧ collection (redis (startWorkflowHandler httpPost workflowID now s).2)
      = <[workflowID :=
            with_StartedAt (with_Status workflow StatusRunning)
              (formatRFC3339 now)]> (collection (redis s)).
Proof.
  unfold startWorkflowHandler.
  destruct (getWorkflow workflowID (redis s)) as [[[w|]|e] r1] eqn:Hg;
    try done.
  destruct (getWorkflow_Ok _ _ _ _ Hg) as [Hw Hk]. symmetry in Hw.
  destruct (decide (Status w ≠ StatusCreated)) as [|Hst]; [done|].
  apply dec_stable in Hst.
  destruct (httpPost _ _ (net s)) as [[err|code payload] n1]; [done|].
  destruct (decide (code ≠ http.StatusOK)) as [Hne|_].
  { simpl. intros [= -> _]. done. }
  destruct (updateWorkflow workflowID _ r1) as [res r2] eqn:Hup.
  apply updateWorkflow_result in Hup.
  rewrite (collection_kv _ _ Hk) in Hup.
  destruct res as [[updated|]|e]; [| |done].
  - destruct Hup as (w' & Hw' & -> & Hu).
    assert (w' = w) as -> by congruence.
    intros _. exists w. split; [done|]. split; [done|].
    pose proof (getWorkflow_kv workflowID r2) as Hk2.
    destruct (getWorkflow workflowID r2) as [[?|?] r3]; simpl in *;
      unfold collection at 1; by rewrite Hk2, Hu, lookup_insert_eq.
  - destruct Hup as [Hnone _]. congruence.
Qed.

(** A workflow that has left the status created does not come back to
    it, as long as its identifier is not generated again. *)
Lemma serve_stays_started q s id workflow :
  id ∉ generated [q] →
  collection (redis s) !! id = Some workflow →
  Status workflow ≠ StatusCreated →
  ∃ current,
    collection (redis (serve httpPost q s).2) !! id = Some current
    ∧ Status current ≠ StatusCreated.
Proof.
  intros Hnew Hw Hst.
  destruct (serve_cases httpPost q s)
    as [->|[(body & uuid & now & req & -> & ->)
          |[(wid & now & w0 & Hw0 & Hst0 & ->)
           |(wid & now & w0 & Hw0 & Hst0 & ->)]]].
  - by exists workflow.
  - exists workflow. rewrite lookup_insert_ne; [done|].
    intros ->. apply Hnew. simpl. set_solver.
  - rewrite lookup_insert. case_decide as Heq; [|by exists workflow].
    eexists. split; [done|]. simpl. discriminate.
  - rewrite lookup_insert. case_decide as Heq; [|by exists workflow].
    eexists. split; [done|]. simpl. discriminate.
Qed.

Lemma run_stays_started qs s id workflow :
  id ∉ generated qs →
  collection (redis s) !! id = Some workflow →
  Status workflow ≠ StatusCreated →
  ∃ current,
    collection (redis (run httpPost qs s)) !! id = Some current
    ∧ Status current ≠ StatusCreated.
Proof.
  revert s workflow.
  induction qs as [|q qs IH]; intros s workflow Hnew Hw Hst; simpl.
  - by exists workflow.
  - rewrite generated_cons in Hnew.
    destruct (serve_stays_started q s id workflow) as (mid & Hmid & Hst');
      [set_solver|done|done|].
    apply (IH _ mid); [set_solver|done|done].
Qed.

(** X23.  A workflow is started once, in any sequence of requests
    served one after the other.  After [Start] has answered 200 for a
    workflow, and after any further requests in which the UUID
    generator does not hand out the workflow's identifier again, a
    [Start] for it never answers 200 and never changes the store; with
    Redis answering it fails with InvalidStateError. *)
Theorem startWorkflowHandler_once workflowID now s body qs now' :
  (startWorkflowHandler httpPost workflowID now s).1
  = Respond http.StatusOK body →
  workflowID ∉ generated qs →
  (∀ body',
     (startWorkflowHandler httpPost workflowID now'
        (run httpPost qs
           (startWorkflowHandler httpPost workflowID now s).2)).1
     ≠ Respond http.StatusOK body')
  ∧ kv (redis (startWorkflowHandler httpPost workflowID now'
                 (run httpPost qs
                    (startWorkflowHandler httpPost workflowID now s).2)).2)
    = kv (redis (run httpPost qs
                   (startWorkflowHandler httpPost workflowID now s).2))
  ∧ (faults (redis (run httpPost qs
                      (startWorkflowHandler httpPost workflowID now s).2))
     = [] →
     Errors.InvalidStateError
       (startWorkflowHandler httpPost workflowID now'
          (run httpPost qs
             (startWorkflowHandler httpPost workflowID now s).2)).1).
Proof.
  intros Hout Hnew.
  destruct (startWorkflowHandler_OK _ _ _ _ Hout) as (w & Hw & Hst & Hc).
  set (s1 := (startWorkflowHandler httpPost workflowID now s).2) in *.
  assert (collection (redis s1) !! workflowID
          = Some (with_StartedAt (with_Status w StatusRunning)
                    (formatRFC3339 now))) as Hw1
    by (by rewrite Hc, lookup_insert_eq).
  destruct (run_stays_started qs s1 workflowID _ Hnew Hw1)
    as (current & Hcur & Hstarted); [simpl; discriminate|].
  set (s2 := run httpPost qs s1) in *.
  assert (∀ body',
            (startWorkflowHandler httpPost workflowID now' s2).1
            ≠ Respond http.StatusOK body') as Hnever.
  { intros body' Hout'.
    destruct (startWorkflowHandler_OK _ _ _ _ Hout') as (w2 & Hw2 & Hst2 & _).
    rewrite Hcur in Hw2. injection Hw2 as <-. done. }
  split; [done|]. split.
  - destruct (startWorkflowHandler_cases httpPost workflowID now' s2)
      as [Hk|(w2 & _ & _ & [found Hout'] & _)]; [done|].
    by destruct (Hnever (JSON_workflow found)).
  - intros Hf. unfold startWorkflowHandler.
    rewrite (getWorkflow_no_fault _ _ Hf), Hcur.
    destruct (decide (Status current ≠ StatusCreated)); [|done].
    simpl. by left.
Qed.

End CoordinatorGuards.

(** ** The coordinator: what a run keeps *)

Section CoordinatorHistory.
Import Redis WorkflowService.
Context {N : Type} (httpPost : string → JsonObject → N → PostResult * N).
Implicit Types (s : World (N := N)) (qs : list Request) (q : Request).

(** X24.  The reserved status is never reached: from an empty
    collection, after any sequence of Create, Start, Complete and
    ExecuteStep requests, every stored workflow has status created,
    running or completed, and so never paused. *)
Theorem reachable_status qs s0 id workflow :
  collection (redis s0) = ∅ →
  collection (redis (run httpPost qs s0)) !! id = Some workflow →
  (Status workflow = StatusCreated ∨ Status workflow = StatusRunning
   ∨ Status workflow = StatusCompleted)
  ∧ Status workflow ≠ StatusPaused.
Proof.
  intros Hempty Hw.
  assert (Status workflow = StatusCreated ∨ Status workflow = StatusRunning
          ∨ Status workflow = StatusCompleted) as H.
  { revert Hw. generalize id workflow.
    assert (∀ id w, collection (redis s0) !! id = Some w →
              Status w = StatusCreated ∨ Status w = StatusRunning
              ∨ Status w = StatusCompleted) as Hinv
      by (intros ? ?; by rewrite Hempty, lookup_empty).
    clear Hempty id workflow. revert s0 Hinv.
    induction qs as [|q qs IH]; intros s0 Hinv; simpl; [done|].
    apply IH. intros id w.
    destruct (serve_cases httpPost q s0)
      as [->|[(body & uuid & now & req & _ & ->)
            |[(wid & now & w0 & Hw0 & Hst & ->)
             |(wid & now & w0 & Hw0 & Hst & ->)]]].
    - apply Hinv.
    - rewrite lookup_insert. case_decide; [|apply Hinv].
      intros [= <-]. by left.
    - rewrite lookup_insert. case_decide; [|apply Hinv].
      intros [= <-]. by right; left.
    - rewrite lookup_insert. case_decide; [|apply Hinv].
      intros [= <-]. by right; right. }
  split; [done|]. destruct H as [->|[->| ->]]; discriminate.
Qed.

Lemma serve_keeps_workflow q s id workflow :
  id ∉ generated [q] →
  collection (redis s) !! id = Some workflow →
  ∃ current,
    collection (redis (serve httpPost q s).2) !! id = Some current
    ∧ ID current = ID workflow
    ∧ Name current = Name workflow
    ∧ DeviceID current = DeviceID workflow
    ∧ SampleBarcodes current = SampleBarcodes workflow
    ∧ Steps current = Steps workflow
    ∧ CreatedAt current = CreatedAt workflow
    ∧ (Status workflow = StatusCompleted → current = workflow).
Proof.
  intros Hnew Hw.
  destruct (serve_cases httpPost q s)
    as [->|[(body & uuid & now & req & -> & ->)
          |[(wid & now & w0 & Hw0 & Hst & ->)
           |(wid & now & w0 & Hw0 & Hst & ->)]]].
  - exists workflow. by repeat split.
  - exists workflow. rewrite lookup_insert_ne; [by repeat split|].
    intros ->. apply Hnew. simpl. set_solver.
  - rewrite lookup_insert. case_decide as Heq.
    + subst wid. assert (w0 = workflow) as -> by congruence.
      eexists. split; [done|]. repeat split; try done.
      intros Hc. rewrite Hst in Hc. discriminate Hc.
    + exists workflow. by repeat split.
  - rewrite lookup_insert. case_decide as Heq.
    + subst wid. assert (w0 = workflow) as -> by congruence.
      eexists. split; [done|]. repeat split; try done.
      intros Hc. rewrite Hst in Hc. discriminate Hc.
    + exists workflow. by repeat split.
Qed.

(** X25.  What a run keeps of a workflow.  Along any sequence of
    requests in which the UUID generator does not hand out the
    workflow's identifier again, a stored workflow is never removed and
    keeps its id, name, device, sample barcodes, steps and created_at;
    and a completed workflow is final: its whole record stays as it
    is. *)
Theorem run_keeps_workflow qs s id workflow :
  id ∉ generated qs →
  collection (redis s) !! id = Some workflow →
  ∃ current,
    collection (redis (run httpPost qs s)) !! id = Some current
    ∧ ID current = ID workflow
    ∧ Name current = Name workflow
    ∧ DeviceID current = DeviceID workflow
    ∧ SampleBarcodes current = SampleBarcodes workflow
    ∧ Steps current = Steps workflow
    ∧ CreatedAt current = CreatedAt workflow
    ∧ (Status workflow = StatusCompleted → current = workflow).
Proof.
  revert s workflow.
  induction qs as [|q qs IH]; intros s workflow Hnew Hw; simpl.
  - exists workflow. by repeat split.
  - rewrite generated_cons in Hnew.
    destruct (serve_keeps_workflow q s id workflow) as
      (mid & Hmid & H1 & H2 & H3 & H4 & H5 & H6 & Hfin);
      [set_solver|done|].
    destruct (IH (serve httpPost q s).2 mid) as
      (current & Hcur & G1 & G2 & G3 & G4 & G5 & G6 & Gfin);
      [set_solver|done|].
    exists current. split; [done|].
    repeat split; try congruence.
    intros Hc. rewrite (Gfin ltac:(by rewrite (Hfin Hc))). by apply Hfin.
Qed.

End CoordinatorHistory.

(** ** The coordinator against the device service: release and execute *)

Section Releasing.
Import Redis WorkflowService.

Lemma route_known deviceID :
  is_Some (DeviceService.DEVICES !! deviceID) →
  DeviceService.route ("/devices/" +:+ deviceID +:+ "/release")
  = Some (DeviceService.release deviceID)
  ∧ DeviceService.route ("/devices/" +:+ deviceID +:+ "/execute")
    = Some (DeviceService.execute deviceID).
Proof.
  intros Hknown.
  destruct (DEVICES_known deviceID Hknown) as [-> | [-> | ->]];
    by split.
Qed.

(** X26.  [Complete] against the device service, both stores
    answering, for a stored running workflow bound to a known device.
    If the device is reserved for this workflow, or not reserved at
    all, the device becomes available with no reservation and the
    workflow is stored as completed.  If the device is reserved for
    another workflow, the release is refused with 403, [Complete]
    passes the refusal on, and neither store changes: the workflow
    stays running. *)
Theorem completeWorkflowHandler_releases bindingError deviceNow
    workflowID now r devices workflow :
  faults r = [] →
  faults devices = [] →
  collection r !! workflowID = Some workflow →
  Status workflow = StatusRunning →
  is_Some (DeviceService.DEVICES !! DeviceID workflow) →
  workflowID ≠ "" →
  (DeviceService.reservation devices (DeviceID workflow) = None
   ∨ DeviceService.reservation devices (DeviceID workflow) = Some workflowID →
   ∃ r' devices',
     completeWorkflowHandler
       (DeviceService.servePOST bindingError deviceNow) workflowID now
       (mkWorld r devices)
     = (Respond http.StatusOK
          (JSON_workflow
             (Some (with_CompletedAt (with_Status workflow StatusCompleted)
                      (formatRFC3339 now)))), mkWorld r' devices')
     ∧ collection r' !! workflowID
       = Some (with_CompletedAt (with_Status workflow StatusCompleted)
                 (formatRFC3339 now))
     ∧ kv devices' !! DeviceService.statusKey (DeviceID workflow)
       = Some "available"
     ∧ DeviceService.reservation devices' (DeviceID workflow) = None)
  ∧ (∀ other,
       DeviceService.reservation devices (DeviceID workflow) = Some other →
       other ≠ workflowID →
       completeWorkflowHandler
         (DeviceService.servePOST bindingError deviceNow) workflowID now
         (mkWorld r devices)
       = (Respond http.StatusForbidden
            (H_error_details "Failed to release device"
               (Some [("error", "Device is booked by another workflow")])),
          mkWorld r devices)).
Proof.
  intros Hf Hfd Hw Hst Hknown Hid.
  destruct (route_known _ Hknown) as [Hroute _].
  assert (DeviceService.requester (Json [("workflow_id", workflowID)])
          = workflowID) as Hreq.
  { unfold DeviceService.requester, DeviceService.bindReleaseRequest.
    simpl. by destruct (decide ("workflow_id" = "workflow_id")). }
  destruct Hknown as [device Hd].
  unfold completeWorkflowHandler. cbn [redis net].
  rewrite (getWorkflow_no_fault _ _ Hf), Hw.
  destruct (decide (Status workflow ≠ StatusRunning)); [done|].
  cbv zeta. unfold DeviceService.servePOST. rewrite Hroute.
  unfold DeviceService.releaseDeviceHandler. rewrite Hd.
  fold (DeviceService.requester (Json [("workflow_id", workflowID)])).
  rewrite Hreq, (GET_no_fault _ _ Hfd).
  unfold DeviceService.reservation. split.
  - intros [Hres|Hres]; rewrite Hres.
    + rewrite (setDeviceStatus_available _ _ Hfd).
      unfold DeviceService.JSON.
      destruct (decide (http.StatusOK ≠ http.StatusOK)); [done|].
      rewrite (updateWorkflow_no_fault _ _ _ workflow Hf Hw).
      rewrite getWorkflow_no_fault by done.
      rewrite collection_mk, lookup_insert_eq, applyUpdates_complete.
      eexists _, _. split; [reflexivity|]. simpl.
      rewrite collection_mk, lookup_insert_eq. split; [done|]. split.
      * rewrite lookup_delete_ne
          by (symmetry; apply statusKey_ne_workflowKey).
        apply lookup_insert_eq.
      * apply lookup_delete_eq.
    + rewrite bool_decide_eq_false_2 by (intros [H _]; by apply H).
      rewrite (setDeviceStatus_available _ _ Hfd).
      unfold DeviceService.JSON.
      destruct (decide (http.StatusOK ≠ http.StatusOK)); [done|].
      rewrite (updateWorkflow_no_fault _ _ _ workflow Hf Hw).
      rewrite getWorkflow_no_fault by done.
      rewrite collection_mk, lookup_insert_eq, applyUpdates_complete.
      eexists _, _. split; [reflexivity|]. simpl.
      rewrite collection_mk, lookup_insert_eq. split; [done|]. split.
      * rewrite lookup_delete_ne
          by (symmetry; apply statusKey_ne_workflowKey).
        apply lookup_insert_eq.
      * apply lookup_delete_eq.
  - intros other -> Hother.
    rewrite bool_decide_eq_true_2 by done.
    unfold DeviceService.JSON.
    by rewrite decide_True by (intros H; discriminate H).
Qed.

End Releasing.

Section Executing.
Import Redis WorkflowService.

Lemma bindExecuteRequest_sent workflowID step :
  workflowID ≠ "" → step ≠ "" →
  DeviceService.bindExecuteRequest
    (Json [("workflow_id", workflowID); ("operation", step)])
  = Some (workflowID, step).
Proof.
  intros Hw Hs. unfold DeviceService.bindExecuteRequest. simpl.
  destruct (decide (workflowID = "" ∨ step = "")) as [[?|?]|_]; done.
Qed.

(** X27.  [ExecuteStep] against the device service, both stores
    answering, for a stored running workflow bound to a known device
    and a step index within its steps (the step and the workflow
    identifier not empty).  If the device is reserved for this
    workflow, the answer is 200 with the index, the step and the device
    service's record of the operation.  Otherwise the device service
    refuses with 403 and [ExecuteStep] passes the refusal on.  Neither
    store changes in either case. *)
Theorem executeStepHandler_holder_only bindingError deviceNow
    workflowID i r devices workflow step :
  faults r = [] →
  faults devices = [] →
  collection r !! workflowID = Some workflow →
  Status workflow = StatusRunning →
  is_Some (DeviceService.DEVICES !! DeviceID workflow) →
  (0 <= i)%Z →
  Steps workflow !! Z.to_nat i = Some step →
  workflowID ≠ "" → step ≠ "" →
  (DeviceService.reservation devices (DeviceID workflow) = Some workflowID →
   executeStepHandler (DeviceService.servePOST bindingError deviceNow)
     workflowID (Some i) (mkWorld r devices)
   = (Respond http.StatusOK
        (H_step workflowID i step
           (Some [("device_id", DeviceID workflow); ("operation", step);
                  ("status", "completed");
                  ("executed_at", formatRFC3339 deviceNow)])),
      mkWorld r devices))
  ∧ (DeviceService.reservation devices (DeviceID workflow)
     ≠ Some workflowID →
     executeStepHandler (DeviceService.servePOST bindingError deviceNow)
       workflowID (Some i) (mkWorld r devices)
     = (Respond http.StatusForbidden
          (H_error_details "Failed to execute step"
             (Some [("error", "Device not booked by this workflow")])),
        mkWorld r devices)).
Proof.
  intros Hf Hfd Hw Hst Hknown Hpos Hstep Hid Hop.
  destruct (route_known _ Hknown) as [_ Hroute].
  destruct Hknown as [device Hd].
  unfold executeStepHandler. cbn [redis net].
  rewrite (getWorkflow_no_fault _ _ Hf), Hw.
  destruct (decide (Status workflow ≠ StatusRunning)); [done|].
  cbv zeta.
  destruct (decide (i >= len (Steps workflow))%Z) as [Hge|_].
  { apply lookup_lt_Some in Hstep. unfold len in Hge. lia. }
  unfold index. destruct (decide (i < 0)%Z); [lia|]. rewrite Hstep.
  unfold DeviceService.servePOST. rewrite Hroute.
  unfold DeviceService.executeOperationHandler.
  rewrite Hd, (bindExecuteRequest_sent _ _ Hid Hop), (GET_no_fault _ _ Hfd).
  unfold DeviceService.reservation, DeviceService.JSON. split.
  - intros ->. rewrite bool_decide_eq_false_2 by (intros H; by apply H).
    by destruct (decide (http.StatusOK ≠ http.StatusOK)).
  - intros Hne.
    destruct (kv devices !! DeviceService.workflowKey (DeviceID workflow))
      as [current|].
    + rewrite bool_decide_eq_true_2 by congruence.
      by rewrite decide_True by (intros H; discriminate H).
    + by rewrite decide_True by (intros H; discriminate H).
Qed.

End Executing.

(** ** The further properties on concrete stores *)

Section SampleWitnesses.
Import Redis SampleService Fixture.

Lemma createSampleHandler_keeps_existing_witness :
  collection (createSampleHandler (Some duplicate_request) noon
                sample_store).2 !! "SAMPLE001" = Some first_sample
  ∧ createSampleHandler (Some duplicate_request) noon sample_store
    = (JSON_error http.StatusConflict "Sample already exists", sample_store).
Proof.
  destruct (createSampleHandler_keeps_existing (Some duplicate_request) noon
              sample_store "SAMPLE001" first_sample eq_refl)
    as [Hkept Hconflict].
  split; [exact Hkept|].
  apply (Hconflict duplicate_request); reflexivity.
Defined.

Lemma createSampleHandler_adds_witness :
  ∃ r',
    createSampleHandler (Some blood_request) noon sample_store
    = (JSON_sample http.StatusCreated
         (mkSample "SAMPLE004" "Blood Sample D" "blood"
            (mkLocation "PLATE-02" "B2") "2025-01-15T12:00:00Z" ""), r')
    ∧ collection r' !! "SAMPLE004"
      = Some (mkSample "SAMPLE004" "Blood Sample D" "blood"
                (mkLocation "PLATE-02" "B2") "2025-01-15T12:00:00Z" "").
Proof.
  destruct (createSampleHandler_adds (Some blood_request) noon sample_store
              blood_request eq_refl eq_refl eq_refl)
    as (r' & Hout & Hc & _).
  exists r'. split; [exact Hout|]. rewrite Hc. reflexivity.
Defined.

Lemma createSampleHandler_then_get_witness :
  getSampleHandler "SAMPLE004"
    (createSampleHandler (Some blood_request) noon sample_store).2
  = (JSON_sample http.StatusOK
       (mkSample "SAMPLE004" "Blood Sample D" "blood"
          (mkLocation "PLATE-02" "B2") "2025-01-15T12:00:00Z" ""),
     (createSampleHandler (Some blood_request) noon sample_store).2).
Proof.
  apply (createSampleHandler_then_get (Some blood_request) noon sample_store
           http.StatusCreated
           (mkSample "SAMPLE004" "Blood Sample D" "blood"
              (mkLocation "PLATE-02" "B2") "2025-01-15T12:00:00Z" ""));
    reflexivity.
Defined.

Lemma updateSampleLocationHandler_frame_witness :
  ∃ r',
    updateSampleLocationHandler "SAMPLE001"
      (Some (mkLocation "PLATE-09" "H12")) noon sample_store
    = (JSON_sample http.StatusOK
         (mkSample "SAMPLE001" "Blood Sample A" "blood"
            (mkLocation "PLATE-09" "H12") "2025-01-15T10:00:00Z"
            "2025-01-15T12:00:00Z"), r').
Proof.
  destruct (proj2 (updateSampleLocationHandler_frame "SAMPLE001"
                     (Some (mkLocation "PLATE-09" "H12")) noon sample_store)
              first_sample (mkLocation "PLATE-09" "H12")
              eq_refl eq_refl eq_refl) as (r' & Hout & _).
  exists r'. exact Hout.
Defined.

Lemma getSampleHandler_agrees_with_validation_witness :
  getSampleHandler "SAMPLE900" sample_store
  = (JSON_error http.StatusNotFound "Sample not found", sample_store).
Proof.
  apply (proj2 (getSampleHandler_agrees_with_validation "SAMPLE900"
                  sample_store eq_refl)).
  reflexivity.
Defined.

Lemma sample_run_keeps_witness :
  ∃ current,
    collection (run sample_requests sample_store) !! "SAMPLE001"
    = Some current
    ∧ Name current = "Blood Sample A"
    ∧ CreatedAt current = "2025-01-15T10:00:00Z".
Proof.
  destruct (sample_run_keeps sample_requests sample_store "SAMPLE001"
              first_sample eq_refl)
    as (current & Hcur & _ & Hname & _ & Hcreated).
  exists current. split; [exact Hcur|]. split; assumption.
Defined.

Lemma sample_run_keyed_witness :
  ∃ sample,
    collection (run sample_requests (Redis.mk ∅ [])) !! "SAMPLE004"
    = Some sample
    ∧ Barcode sample = "SAMPLE004".
Proof.
  eexists. split; [reflexivity|].
  apply (sample_run_keyed sample_requests (Redis.mk ∅ [])); [|reflexivity].
  intros barcode sample H.
  change (collection (Redis.mk ∅ [])) with (∅ : gmap string Sample) in H.
  rewrite lookup_empty in H. discriminate H.
Defined.

Lemma seed_keeps_data_witness :
  seed sample_store = Some sample_store ∧ kv sample_store = kv sample_store.
Proof.
  assert (seed sample_store = Some sample_store) as Hseed by reflexivity.
  split; [exact Hseed|].
  apply (proj1 (seed_keeps_data sample_store sample_store Hseed)).
  intros H. apply (f_equal (λ samples, samples !! "SAMPLE001")) in H.
  discriminate H.
Defined.

End SampleWitnesses.

Section DeviceWitnesses.
Import Redis DeviceService Fixture.

Lemma bookDeviceHandler_books_witness :
  ∃ r',
    bookDeviceHandler "liquid-handler-1" (Json [("workflow_id", "wf-1")])
      noon idle_devices
    = (JSON http.StatusOK
         [("device_id", "liquid-handler-1"); ("status", "busy");
          ("workflow_id", "wf-1"); ("booked_at", "2025-01-15T12:00:00Z")],
       r')
    ∧ reservation r' "liquid-handler-1" = Some "wf-1"
    ∧ reservation r' "incubator-1" = None.
Proof.
  destruct (bookDeviceHandler_books "liquid-handler-1"
              (Json [("workflow_id", "wf-1")]) noon idle_devices "wf-1"
              eq_refl (mk_is_Some _ _ eq_refl) eq_refl
              (or_introl eq_refl))
    as (r' & Hout & _ & _ & Hres & Hother).
  exists r'. split; [exact Hout|]. split; [exact Hres|].
  destruct (Hother "incubator-1" (mk_is_Some _ _ eq_refl)) as [_ Hres'];
    [discriminate|].
  rewrite Hres'. reflexivity.
Defined.

Lemma bookDeviceHandler_exclusive_witness :
  bookDeviceHandler "liquid-handler-1" (Json [("workflow_id", "wf-2")]) noon
    (bookDeviceHandler "liquid-handler-1" (Json [("workflow_id", "wf-1")])
       noon idle_devices).2
  = (JSON http.StatusConflict [("error", "Device is not available")],
     (bookDeviceHandler "liquid-handler-1" (Json [("workflow_id", "wf-1")])
        noon idle_devices).2)
  ∧ reservation
      (bookDeviceHandler "liquid-handler-1" (Json [("workflow_id", "wf-1")])
         noon idle_devices).2 "liquid-handler-1" = Some "wf-1".
Proof.
  apply (bookDeviceHandler_exclusive "liquid-handler-1"
           (Json [("workflow_id", "wf-1")]) noon idle_devices "wf-1"
           (Json [("workflow_id", "wf-2")]) noon "wf-2"
           eq_refl (mk_is_Some _ _ eq_refl) eq_refl (or_introl eq_refl)
           eq_refl).
Defined.

Lemma executeOperationHandler_holder_only_witness :
  executeOperationHandler no_text "liquid-handler-1"
    (Json [("workflow_id", "wf-1"); ("operation", "pipette")]) noon
    booked_devices
  = (JSON http.StatusOK
       [("device_id", "liquid-handler-1"); ("operation", "pipette");
        ("status", "completed"); ("executed_at", "2025-01-15T12:00:00Z")],
     booked_devices)
  ∧ executeOperationHandler no_text "liquid-handler-1"
      (Json [("workflow_id", "wf-9"); ("operation", "pipette")]) noon
      booked_devices
    = (JSON http.StatusForbidden
         [("error", "Device not booked by this workflow")], booked_devices).
Proof.
  split.
  - apply (proj1 (proj2 (executeOperationHandler_holder_only no_text
             "liquid-handler-1"
             (Json [("workflow_id", "wf-1"); ("operation", "pipette")])
             noon booked_devices) "wf-1" "pipette"
             eq_refl (mk_is_Some _ _ eq_refl) eq_refl)).
    reflexivity.
  - apply (proj2 (proj2 (executeOperationHandler_holder_only no_text
             "liquid-handler-1"
             (Json [("workflow_id", "wf-9"); ("operation", "pipette")])
             noon booked_devices) "wf-9" "pipette"
             eq_refl (mk_is_Some _ _ eq_refl) eq_refl)).
    discriminate.
Defined.

Lemma book_release_book_witness :
  ∃ r1 r2 r3,
    (bookDeviceHandler "incubator-1" (Json [("workflow_id", "wf-1")]) noon
       idle_devices).2 = r1
    ∧ releaseDeviceHandler "incubator-1" (Json [("workflow_id", "wf-1")])
        noon r1
      = (JSON http.StatusOK
           [("device_id", "incubator-1"); ("status", "available");
            ("released_at", "2025-01-15T12:00:00Z")], r2)
    ∧ reservation r2 "incubator-1" = None
    ∧ reservation r3 "incubator-1" = Some "wf-2".
Proof.
  destruct (book_release_book "incubator-1" (Json [("workflow_id", "wf-1")])
              noon idle_devices "wf-1" (Json [("workflow_id", "wf-1")]) noon
              (Json [("workflow_id", "wf-2")]) noon "wf-2"
              eq_refl (mk_is_Some _ _ eq_refl) eq_refl (or_introl eq_refl)
              eq_refl eq_refl)
    as (r1 & r2 & r3 & H1 & H2 & _ & H3 & _ & H4).
  exists r1, r2, r3. repeat split; assumption.
Defined.

Lemma servePOST_refused_witness :
  kv (servePOST no_text noon "/devices/liquid-handler-1/book"
        [("workflow_id", "wf-2")] booked_devices).2
  = kv booked_devices.
Proof.
  apply (servePOST_refused no_text noon "/devices/liquid-handler-1/book"
           [("workflow_id", "wf-2")] booked_devices http.StatusConflict
           (Json [("error", "Device is not available")])).
  - reflexivity.
  - discriminate.
Defined.

Lemma getDeviceHandler_after_booking_witness :
  getDeviceHandler "plate-reader-1"
    (bookDeviceHandler "plate-reader-1" (Json [("workflow_id", "wf-1")])
       noon idle_devices).2
  = ((http.StatusOK,
      JSON_device
        (mkDevice "plate-reader-1" "Plate Reader Gamma" "plate_reader"
           "busy" ["absorbance"; "fluorescence"] "wf-1")),
     (bookDeviceHandler "plate-reader-1" (Json [("workflow_id", "wf-1")])
        noon idle_devices).2).
Proof.
  apply (proj2 (getDeviceHandler_after_booking "plate-reader-1"
                  (Json [("workflow_id", "wf-1")]) noon idle_devices "wf-1")
           (mkDevice "plate-reader-1" "Plate Reader Gamma" "plate_reader"
              "available" ["absorbance"; "fluorescence"] "")
           eq_refl eq_refl eq_refl (or_introl eq_refl)).
Defined.

Lemma initializeDevices_keeps_bookings_witness :
  kv (initializeDevices
        ["plate-reader-1"; "liquid-handler-1"; "incubator-1"] booked_devices)
  !! statusKey "liquid-handler-1" = Some "busy"
  ∧ reservation
      (initializeDevices
         ["plate-reader-1"; "liquid-handler-1"; "incubator-1"]
         booked_devices) "liquid-handler-1" = Some "wf-1".
Proof.
  destruct (proj1 (initializeDevices_keeps_bookings
                     ["plate-reader-1"; "liquid-handler-1"; "incubator-1"]
                     booked_devices "liquid-handler-1" eq_refl
                     ltac:(intros x Hx;
                           apply elem_of_cons in Hx as [->|Hx];
                           [by eexists|];
                           apply elem_of_cons in Hx as [->|Hx];
                           [by eexists|];
                           apply elem_of_cons in Hx as [->|Hx];
                           [by eexists|];
                           by apply not_elem_of_nil in Hx)
                     (mk_is_Some _ _ eq_refl))
              (mk_is_Some _ _ eq_refl)) as [Hst Hres].
  rewrite Hst, Hres. split; reflexivity.
Defined.

End DeviceWitnesses.

Section CoordinatorWitnesses.
Import Redis WorkflowService Fixture.

Lemma getWorkflowHandler_round_trip_witness :
  getWorkflowHandler "uuid-1"
    (redis (createWorkflowHandler (Some pcr_request) "uuid-1" noon
              (mkWorld fresh_store ())).2)
  = (Respond http.StatusOK
       (JSON_workflow
          (Some (mkWorkflow "uuid-1" "PCR Run" "liquid-handler-1"
                   ["SAMPLE001"] ["pipette"; "heat"] StatusCreated
                   "2025-01-15T12:00:00Z" "" ""))),
     redis (createWorkflowHandler (Some pcr_request) "uuid-1" noon
              (mkWorld fresh_store ())).2).
Proof.
  apply (proj1 (getWorkflowHandler_round_trip (Some pcr_request) "uuid-1"
                  noon (mkWorld fresh_store ())
                  (mkWorkflow "uuid-1" "PCR Run" "liquid-handler-1"
                     ["SAMPLE001"] ["pipette"; "heat"] StatusCreated
                     "2025-01-15T12:00:00Z" "" "")
                  (createWorkflowHandler (Some pcr_request) "uuid-1" noon
                     (mkWorld fresh_store ())).2 eq_refl)).
  reflexivity.
Defined.

Lemma startWorkflowHandler_starts_witness :
  ∃ s',
    startWorkflowHandler granting "wf-1" noon (mkWorld created_store ())
    = (Respond http.StatusOK
         (JSON_workflow
            (Some (mkWorkflow "wf-1" "PCR Run" "liquid-handler-1"
                     ["SAMPLE001"] ["pipette"; "heat"] StatusRunning
                     "2025-01-15T10:00:00Z" "2025-01-15T12:00:00Z" ""))), s').
Proof.
  destruct (startWorkflowHandler_starts granting "wf-1" noon
              (mkWorld created_store ()) (pcr_run StatusCreated "")
              (Json [("status", "ok")]) () eq_refl eq_refl eq_refl eq_refl)
    as (s' & Hout & _).
  exists s'. exact Hout.
Defined.

Lemma completeWorkflowHandler_completes_witness :
  ∃ s',
    completeWorkflowHandler granting "wf-1" noon (mkWorld running_store ())
    = (Respond http.StatusOK
         (JSON_workflow
            (Some (mkWorkflow "wf-1" "PCR Run" "liquid-handler-1"
                     ["SAMPLE001"] ["pipette"; "heat"] StatusCompleted
                     "2025-01-15T10:00:00Z" "2025-01-15T10:01:00Z"
                     "2025-01-15T12:00:00Z"))), s').
Proof.
  destruct (completeWorkflowHandler_completes granting "wf-1" noon
              (mkWorld running_store ())
              (pcr_run StatusRunning "2025-01-15T10:01:00Z")
              (Json [("status", "ok")]) () eq_refl eq_refl eq_refl eq_refl)
    as (s' & Hout & _).
  exists s'. exact Hout.
Defined.

Lemma completeWorkflowHandler_failure_leaves_store_witness :
  Errors.DependencyError
    (completeWorkflowHandler unreachable "wf-1" noon
       (mkWorld running_store ())).1
  ∧ kv (redis (completeWorkflowHandler unreachable "wf-1" noon
                 (mkWorld running_store ())).2)
    = kv running_store.
Proof.
  assert (Errors.DependencyError
            (completeWorkflowHandler unreachable "wf-1" noon
               (mkWorld running_store ())).1) as Hfail.
  { exists "connection refused". reflexivity. }
  split; [exact Hfail|].
  apply (completeWorkflowHandler_failure_leaves_store unreachable "wf-1" noon
           (mkWorld running_store ())).
  right; left; exact Hfail.
Defined.

Lemma no_request_before_state_check_witness :
  net (startWorkflowHandler recording "wf-1" noon
         (mkWorld running_store [])).2 = []
  ∧ net (executeStepHandler recording "wf-1" (Some 2%Z)
           (mkWorld running_store [])).2 = [].
Proof.
  destruct (no_request_before_state_check recording "wf-1" noon (Some 2%Z)
              (mkWorld running_store [])) as (Hstart & _ & Hexec).
  split.
  - apply Hstart. intros workflow [= <-]. discriminate.
  - apply Hexec. intros workflow [= <-]. right. vm_compute. discriminate.
Defined.

Lemma executeStepHandler_in_range_witness :
  executeStepHandler recording "wf-1" (Some 1%Z) (mkWorld running_store [])
  = (Respond http.StatusOK
       (H_step "wf-1" 1 "heat" (Some [("status", "ok")])),
     mkWorld running_store
       [("/devices/liquid-handler-1/execute",
         [("workflow_id", "wf-1"); ("operation", "heat")])]).
Proof.
  apply (executeStepHandler_in_range recording "wf-1" (Some 1%Z) 1
           (mkWorld running_store [])
           (pcr_run StatusRunning "2025-01-15T10:01:00Z") running_store
           "heat" eq_refl eq_refl eq_refl ltac:(lia) eq_refl).
Defined.

Lemma startWorkflowHandler_once_witness :
  Errors.InvalidStateError
    (startWorkflowHandler granting "wf-1" noon
       (run granting
          [POST_execute_step "wf-1" (Some 0%Z); POST_complete "wf-1" noon]
          (startWorkflowHandler granting "wf-1" noon
             (mkWorld created_store ())).2)).1.
Proof.
  apply (proj2 (proj2 (startWorkflowHandler_once granting "wf-1" noon
                         (mkWorld created_store ())
                         (JSON_workflow
                            (Some (pcr_run StatusRunning
                                     "2025-01-15T12:00:00Z")))
                         [POST_execute_step "wf-1" (Some 0%Z);
                          POST_complete "wf-1" noon]
                         noon eq_refl ltac:(apply not_elem_of_nil)))).
  reflexivity.
Defined.

Lemma reachable_status_witness :
  ∃ workflow,
    collection (redis (run granting full_run (mkWorld fresh_store ())))
    !! "uuid-1" = Some workflow
    ∧ Status workflow ≠ StatusPaused.
Proof.
  eexists. split; [reflexivity|].
  apply (reachable_status granting full_run (mkWorld fresh_store ())
           "uuid-1"); reflexivity.
Defined.

Lemma run_keeps_workflow_witness :
  ∃ current,
    collection
      (redis (run granting [POST_start "wf-1" noon; POST_complete "wf-1" noon]
                (mkWorld created_store ()))) !! "wf-1" = Some current
    ∧ Steps current = ["pipette"; "heat"].
Proof.
  destruct (run_keeps_workflow granting
              [POST_start "wf-1" noon; POST_complete "wf-1" noon]
              (mkWorld created_store ()) "wf-1" (pcr_run StatusCreated "")
              ltac:(apply not_elem_of_nil) eq_refl)
    as (current & Hcur & _ & _ & _ & _ & Hsteps & _).
  exists current. split; [exact Hcur|exact Hsteps].
Defined.

Lemma completeWorkflowHandler_releases_witness :
  ∃ r' devices',
    completeWorkflowHandler (DeviceService.servePOST no_text noon) "wf-1"
      noon (mkWorld running_store booked_devices)
    = (Respond http.StatusOK
         (JSON_workflow
            (Some (mkWorkflow "wf-1" "PCR Run" "liquid-handler-1"
                     ["SAMPLE001"] ["pipette"; "heat"] StatusCompleted
                     "2025-01-15T10:00:00Z" "2025-01-15T10:01:00Z"
                     "2025-01-15T12:00:00Z"))), mkWorld r' devices')
    ∧ DeviceService.reservation devices' "liquid-handler-1" = None.
Proof.
  destruct (proj1 (completeWorkflowHandler_releases no_text noon "wf-1" noon
                     running_store booked_devices
                     (pcr_run StatusRunning "2025-01-15T10:01:00Z")
                     eq_refl eq_refl eq_refl eq_refl
                     (mk_is_Some _ _ eq_refl) ltac:(discriminate))
              (or_intror eq_refl))
    as (r' & devices' & Hout & _ & _ & Hres).
  exists r', devices'. split; [exact Hout|exact Hres].
Defined.

Lemma executeStepHandler_holder_only_witness :
  executeStepHandler (DeviceService.servePOST no_text noon) "wf-1"
    (Some 0%Z) (mkWorld running_store booked_devices)
  = (Respond http.StatusOK
       (H_step "wf-1" 0 "pipette"
          (Some [("device_id", "liquid-handler-1"); ("operation", "pipette");
                 ("status", "completed");
                 ("executed_at", "2025-01-15T12:00:00Z")])),
     mkWorld running_store booked_devices)
  ∧ executeStepHandler (DeviceService.servePOST no_text noon) "wf-1"
      (Some 0%Z) (mkWorld running_store idle_devices)
    = (Respond http.StatusForbidden
         (H_error_details "Failed to execute step"
            (Some [("error", "Device not booked by this workflow")])),
       mkWorld running_store idle_devices).
Proof.
  split.
  - apply (proj1 (executeStepHandler_holder_only no_text noon "wf-1" 0
                    running_store booked_devices
                    (pcr_run StatusRunning "2025-01-15T10:01:00Z") "pipette"
                    eq_refl eq_refl eq_refl eq_refl (mk_is_Some _ _ eq_refl)
                    ltac:(lia) eq_refl ltac:(discriminate)
                    ltac:(discriminate))).
    reflexivity.
  - apply (proj2 (executeStepHandler_holder_only no_text noon "wf-1" 0
                    running_store idle_devices
                    (pcr_run StatusRunning "2025-01-15T10:01:00Z") "pipette"
                    eq_refl eq_refl eq_refl eq_refl (mk_is_Some _ _ eq_refl)
                    ltac:(lia) eq_refl ltac:(discriminate)
                    ltac:(discriminate))).
    discriminate.
Defined.

End CoordinatorWitnesses.
